(** * NumVis: chunked hexadecimal and binary views of an integer

    A shallow embedding of [numvis.py] (class [NumVis], a subclass of
    Python 2's [long]) and the properties of its two public methods,
    [hex] and [bin].

    Modelling choices.
    - A Python integer is a [Z]; [>>] is [Z.shiftr] (arithmetic, floor),
      [/] and [%] on integers are Python 2's floor division and modulo,
      that is [Z.div] and [Z.modulo], with a zero divisor raising
      [ZeroDivisionError].
    - A Python [str] is a [string]; [list(s)] and [''.join] are
      [list_ascii_of_string] and [string_of_list_ascii].
    - [print] appends a line to the output.  A printed line is kept as the
      tuple of values handed to the format string ([line]); [render] is
      the format string applied to it.
    - An exception stops the method and keeps what was printed before it.
    - The [while] loop that grows [full_size] is run with a fuel; [None]
      means that the fuel ran out before the loop was left.
    - Integers are unbounded in [hex] and [bin], which leave out the
      limits of memory and of the machine words that [xrange] and the shift
      count go through.  The one place where the machine word decides what
      a call does is the growth loop on a negative value: [hex_limited] and
      [bin_limited] are the two methods with CPython's bound on the shift
      count, and agree with [hex] and [bin] as long as the grown
      [full_size] stays within it ([grow_limited_agrees]). *)

From Stdlib Require Import ZArith List String Ascii Bool Lia.
Import ListNotations.

Local Open Scope Z_scope.

(** ** Exceptions and printing *)

Inductive exception : Type :=
| ValueError
| ZeroDivisionError
| OverflowError.

Inductive result (A : Type) : Type :=
| Done (a : A)
| Raised (e : exception).

Arguments Done {A} a.
Arguments Raised {A} e.

(** What one [print] call of the source writes. *)
Inductive line : Type :=
| HexHeader (bytes : Z)                  (* ' (%dB per line):' *)
| BinHeader (bits : Z)                   (* ' (%db per line)' *)
| Row (chunk : string) (high low : Z)    (* ' %-65s [%04d:%04d]' *)
| Blank.                                 (* print('') *)

(** A computation that prints and may raise. *)
Definition io (A : Type) : Type := (list line * result A)%type.

Definition ret {A} (a : A) : io A := ([], Done a).

Definition raise {A} (e : exception) : io A := ([], Raised e).

Definition print (l : line) : io unit := ([l], Done tt).

Definition lift {A} (r : result A) : io A := ([], r).

Definition bind {A B} (m : io A) (f : A -> io B) : io B :=
  match m with
  | (out, Done a) => let (out', r) := f a in (out ++ out', r)
  | (out, Raised e) => (out, Raised e)
  end.

Notation "x <- m ;; k" := (bind m (fun x => k))
  (at level 61, m at next level, right associativity).
Notation "m ;; k" := (bind m (fun _ => k))
  (at level 61, right associativity).

(** ** Python integer operators *)

(** [a >> n] for a count of any size: a negative shift count raises
    [ValueError]. *)
Definition rshift (a n : Z) : result Z :=
  if n <? 0 then Raised ValueError else Done (Z.shiftr a n).

(** [a >> n] as CPython 2 computes it on a [long]: the count is first
    converted to a C integer, which raises [OverflowError] when it is not
    within [-maxshift-1 .. maxshift] ([maxshift] is [sys.maxint], the
    largest C [long]); the sign of the count is tested after that. *)
Definition rshift_limited (maxshift a n : Z) : result Z :=
  if (n <? - maxshift - 1) || (maxshift <? n) then Raised OverflowError
  else if n <? 0 then Raised ValueError
  else Done (Z.shiftr a n).

(** [a % b] *)
Definition pymod (a b : Z) : result Z :=
  if b =? 0 then Raised ZeroDivisionError else Done (a mod b).

(** [a / b] on integers (Python 2) *)
Definition pydiv (a b : Z) : result Z :=
  if b =? 0 then Raised ZeroDivisionError else Done (a / b).

(** [xrange(start, stop, step)] *)
Definition xrange (start stop step : Z) : result (list Z) :=
  if step =? 0 then Raised ValueError
  else
    let count :=
      if 0 <? step then (stop - start + step - 1) / step
      else (start - stop - step - 1) / (- step) in
    Done (map (fun k => start + Z.of_nat k * step) (seq 0 (Z.to_nat count))).

(** ** Strings of digits *)

Definition digit_char (d : Z) : ascii :=
  nth (Z.to_nat d) (list_ascii_of_string "0123456789ABCDEF") "?"%char.

(** Digits of [n] in [base], most significant first, in front of [acc]. *)
Fixpoint to_digits (fuel : nat) (base n : Z) (acc : list ascii) : list ascii :=
  match fuel with
  | O => acc
  | S k =>
      if n =? 0 then acc
      else to_digits k base (n / base) (digit_char (n mod base) :: acc)
  end.

(** The numeral of a natural number: ["0"] for zero, no leading zero. *)
Definition numeral (base n : Z) : list ascii :=
  if n =? 0 then ["0"%char]
  else to_digits (S (Z.to_nat (Z.log2 n))) base n [].

Definition zeros (n : Z) : list ascii := repeat "0"%char (Z.to_nat n).

Definition spaces (n : Z) : list ascii := repeat " "%char (Z.to_nat n).

Definition len (l : list ascii) : Z := Z.of_nat (Datatypes.length l).

(** ['%0<width><conv>' % n] for the integer conversions [d] and [X]: the
    sign first, then zeros up to [width] characters in all.  The width
    the source computes is never negative where the format is used. *)
Definition fmt_zero_padded (base width n : Z) : string :=
  let body := numeral base (Z.abs n) in
  string_of_list_ascii
    (if n <? 0 then "-"%char :: zeros (width - 1 - len body) ++ body
     else zeros (width - len body) ++ body).

(** ['%d' % n] *)
Definition fmt_d (n : Z) : string := fmt_zero_padded 10 0 n.

(** ['%-<width>s' % s] *)
Definition ljust (width : Z) (s : string) : string :=
  let l := list_ascii_of_string s in
  string_of_list_ascii (l ++ spaces (width - len l)).

(** The text that [print] writes for a line. *)
Definition render (l : line) : string :=
  match l with
  | HexHeader n => " (" ++ fmt_d n ++ "B per line):"
  | BinHeader n => " (" ++ fmt_d n ++ "b per line)"
  | Row chunk high low =>
      " " ++ ljust 65 chunk ++ " [" ++ fmt_zero_padded 10 4 high ++ ":"
          ++ fmt_zero_padded 10 4 low ++ "]"
  | Blank => ""
  end%string.

(** ** The methods of [NumVis] *)

(** [l[i:j]] for [0 <= i]. *)
Definition slice {A} (l : list A) (i j : Z) : list A :=
  firstn (Z.to_nat (j - i)) (skipn (Z.to_nat i) l).

(** [' '.join(parts)] *)
Fixpoint join (parts : list string) : string :=
  match parts with
  | [] => ""
  | [p] => p
  | p :: rest => p ++ " " ++ join rest
  end%string.

(** [NumVis._reversesplit] *)
Definition _reversesplit (binstring : string) (size : Z) : result (list string) :=
  let l := rev (list_ascii_of_string binstring) in
  match xrange 0 (len l) size with
  | Raised e => Raised e
  | Done indices =>
      let results := map (fun i => rev (slice l i (i + size))) indices in
      Done (map string_of_list_ascii (rev results))
  end.

(** The builtin [bin(number)]: ["0b"] and the binary numeral of the
    absolute value, behind a ["-"] for a negative number. *)
Definition builtin_bin (number : Z) : list ascii :=
  (if number <? 0 then ["-"%char] else [])
    ++ "0"%char :: "b"%char :: numeral 2 (Z.abs number).

(** [NumVis._rawbin]; [tmp] is [bin(number)[2:]]. *)
Definition _rawbin (number padding : Z) : string :=
  let tmp := skipn 2 (builtin_bin number) in
  string_of_list_ascii
    (if padding <? len tmp then tmp else zeros (padding - len tmp) ++ tmp).

(** The loop [while (self.numerator >> full_size): full_size += line_width]. *)
Fixpoint grow (fuel : nat) (self line_width full_size : Z) : option (result Z) :=
  match fuel with
  | O => None
  | S k =>
      match rshift self full_size with
      | Raised e => Some (Raised e)
      | Done r =>
          if r =? 0 then Some (Done full_size)
          else grow k self line_width (full_size + line_width)
      end
  end.

(** The test [if line_width % full_size != line_width: raise(ValueError, ...)].
    Python 2 raises the first item of the tuple, [ValueError]. *)
Definition check (line_width full_size : Z) : io unit :=
  r <- lift (pymod line_width full_size) ;;
  if negb (r =? line_width) then raise ValueError else ret tt.

(** The loop [for chunk in tmp: ...], shared by [hex] and [bin]; [c] is the
    counter the source decrements. *)
Fixpoint emit (tmp : list string) (c line_width hgroup vgroup : Z) : io unit :=
  match tmp with
  | [] => ret tt
  | chunk :: rest =>
      parts <- lift (_reversesplit chunk hgroup) ;;
      print (Row (join parts) (c * line_width - 1) (c * line_width - line_width)) ;;
      r <- lift (pymod (c - 1) vgroup) ;;
      (if r =? 0 then print Blank else ret tt) ;;
      emit rest (c - 1) line_width hgroup vgroup
  end.

(** The body of [hex] once [full_size] has been grown. *)
Definition hex_body (self line_width full_size hgroup vgroup : Z) : io unit :=
  check line_width full_size ;;
  print (HexHeader (line_width / 8)) ;;
  let str_cl_hex := fmt_zero_padded 16 (full_size / 4) self in
  tmp <- lift (_reversesplit str_cl_hex (line_width / 4)) ;;
  c <- lift (pydiv full_size line_width) ;;
  emit tmp c line_width hgroup vgroup.

(** The body of [bin] once [full_size] has been grown. *)
Definition bin_body (self line_width full_size hgroup vgroup : Z) : io unit :=
  check line_width full_size ;;
  let str_cl_bin := _rawbin self full_size in
  print (BinHeader line_width) ;;
  tmp <- lift (_reversesplit str_cl_bin line_width) ;;
  c <- lift (pydiv full_size line_width) ;;
  emit tmp c line_width hgroup vgroup.

Definition run (body : Z -> io unit) (g : option (result Z)) : option (io unit) :=
  match g with
  | None => None
  | Some (Raised e) => Some (raise e)
  | Some (Done full_size) => Some (body full_size)
  end.

(** [NumVis.hex(self, line_width, full_size, hgroup, vgroup)] *)
Definition hex (fuel : nat) (self line_width full_size hgroup vgroup : Z)
  : option (io unit) :=
  run (fun full_size' => hex_body self line_width full_size' hgroup vgroup)
      (grow fuel self line_width full_size).

(** [NumVis.bin(self, line_width, full_size, hgroup, vgroup)] *)
Definition bin (fuel : nat) (self line_width full_size hgroup vgroup : Z)
  : option (io unit) :=
  run (fun full_size' => bin_body self line_width full_size' hgroup vgroup)
      (grow fuel self line_width full_size).

(** The growth loop with CPython's bound on the shift count. *)
Fixpoint grow_limited (maxshift : Z) (fuel : nat) (self line_width full_size : Z)
  : option (result Z) :=
  match fuel with
  | O => None
  | S k =>
      match rshift_limited maxshift self full_size with
      | Raised e => Some (Raised e)
      | Done r =>
          if r =? 0 then Some (Done full_size)
          else grow_limited maxshift k self line_width (full_size + line_width)
      end
  end.

(** [NumVis.hex] with that bound. *)
Definition hex_limited (maxshift : Z) (fuel : nat)
    (self line_width full_size hgroup vgroup : Z) : option (io unit) :=
  run (fun full_size' => hex_body self line_width full_size' hgroup vgroup)
      (grow_limited maxshift fuel self line_width full_size).

(** [NumVis.bin] with that bound. *)
Definition bin_limited (maxshift : Z) (fuel : nat)
    (self line_width full_size hgroup vgroup : Z) : option (io unit) :=
  run (fun full_size' => bin_body self line_width full_size' hgroup vgroup)
      (grow_limited maxshift fuel self line_width full_size).

(** ** Closed forms of what the methods compute

    They are related to the source definitions by [_reversesplit_pos],
    [fmt_zero_padded_nonneg], [_rawbin_nonneg] and [emit_rows]. *)

(** [pieces m n l]: the first [m] consecutive slices of [n] items of [l]. *)
Fixpoint pieces {A} (m n : nat) (l : list A) : list (list A) :=
  match m with
  | O => []
  | S m' => firstn n l :: pieces m' n (skipn n l)
  end.

(** The groups [_reversesplit] returns for a positive [size]. *)
Definition groups (size : Z) (l : list ascii) : list (list ascii) :=
  rev (map (@rev ascii)
         (pieces (Z.to_nat ((len l + size - 1) / size)) (Z.to_nat size) (rev l))).

(** The symbols of ['%0<width>X' % n] and of [_rawbin(n, width)] for a
    natural number [n]: its numeral behind the zeros that fill the width. *)
Definition padded (base width n : Z) : list ascii :=
  zeros (width - len (numeral base n)) ++ numeral base n.

(** The text of a line: the groups of a chunk joined by spaces. *)
Definition grouped (hgroup : Z) (chunk : list ascii) : string :=
  join (map string_of_list_ascii (groups hgroup chunk)).

(** What [emit] prints when nothing is raised. *)
Fixpoint rows (tmp : list (list ascii)) (c line_width hgroup vgroup : Z) : list line :=
  match tmp with
  | [] => []
  | chunk :: rest =>
      Row (grouped hgroup chunk) (c * line_width - 1) (c * line_width - line_width)
        :: (if (c - 1) mod vgroup =? 0 then [Blank] else [])
        ++ rows rest (c - 1) line_width hgroup vgroup
  end.

(** ** Vocabulary of the specification *)

(** [v.bit_length()] *)
Definition bit_length (v : Z) : Z :=
  if v =? 0 then 0 else Z.log2 (Z.abs v) + 1.

Definition is_row (l : line) : bool :=
  match l with Row _ _ _ => true | _ => false end.

(** The blank separator lines of an output are those [is_blank] keeps. *)
Definition is_blank (l : line) : bool :=
  match l with Blank => true | _ => false end.

(** The content lines of an output, top to bottom. *)
Definition content (out : list line) : list line := filter is_row out.

(** The [[high:low]] labels of an output, top to bottom. *)
Fixpoint labels (out : list line) : list (Z * Z) :=
  match out with
  | [] => []
  | Row _ high low :: rest => (high, low) :: labels rest
  | _ :: rest => labels rest
  end.

(** The symbol texts of the content lines, top to bottom. *)
Fixpoint texts (out : list line) : list string :=
  match out with
  | [] => []
  | Row chunk _ _ :: rest => chunk :: texts rest
  | _ :: rest => texts rest
  end.

Fixpoint index_of (c : ascii) (l : list ascii) (i : Z) : option Z :=
  match l with
  | [] => None
  | x :: rest => if Ascii.eqb c x then Some i else index_of c rest (i + 1)
  end.

(** The value of an upper-case digit symbol. *)
Definition digit_value (c : ascii) : option Z :=
  index_of c (list_ascii_of_string "0123456789ABCDEF") 0.

Definition is_symbol (base : Z) (c : ascii) : bool :=
  match digit_value c with
  | Some d => d <? base
  | None => false
  end.

Definition read_digit (base : Z) (acc : option Z) (c : ascii) : option Z :=
  match acc, digit_value c with
  | Some a, Some d => if d <? base then Some (a * base + d) else None
  | _, _ => None
  end.

(** The number that a plain numeral denotes.  When every character of [s]
    is an upper-case digit of the base the result is [Some n], and [n] is
    what Python's [int(s, base)] returns; otherwise it is [None], which
    says that [s] is not a plain numeral, not that Python raises: [int]
    also accepts a sign, a ["0b"] or ["0x"] prefix, lower-case digits and
    blanks around the numeral. *)
Definition int_of (base : Z) (s : list ascii) : option Z :=
  match s with
  | [] => None
  | _ => fold_left (read_digit base) s (Some 0)
  end.

(** A blank line after every line whose index from the bottom is a multiple
    of [vgroup]; the index of a line is the number of lines below it. *)
Fixpoint with_separators (vgroup : Z) (ls : list line) : list line :=
  match ls with
  | [] => []
  | l :: below =>
      l :: (if Z.of_nat (Datatypes.length below) mod vgroup =? 0 then [Blank] else [])
        ++ with_separators vgroup below
  end.

(** The labels [[n*w-1 : (n-1)*w]], ..., [[w-1 : 0]] of [n] lines of [w] bits. *)
Fixpoint ranges (n : nat) (line_width : Z) : list (Z * Z) :=
  match n with
  | O => []
  | S k => (Z.of_nat (S k) * line_width - 1, Z.of_nat k * line_width)
             :: ranges k line_width
  end.

(** [ls], read in order, cuts the bits [top, ..., 0] into consecutive ranges
    [(high, low)], none empty, with no gap and no overlap. *)
Fixpoint partitions (top : Z) (ls : list (Z * Z)) : Prop :=
  match ls with
  | [] => top = -1
  | (high, low) :: rest => high = top /\ low <= high /\ partitions (low - 1) rest
  end.

(** All the digit symbols of the content lines, top to bottom: the texts
    without the spaces between groups. *)
Definition symbols (base : Z) (out : list line) : list ascii :=
  filter (is_symbol base) (List.concat (map list_ascii_of_string (texts out))).

(** The labels of an output are those of [full_size / line_width] lines of
    [line_width] bits each, from [[full_size-1 : full_size-line_width]] down
    to [[line_width-1 : 0]]. *)
Definition descending_labels (line_width full_size : Z) (out : list line) : Prop :=
  labels out = ranges (Z.to_nat (full_size / line_width)) line_width /\
  partitions (full_size - 1) (labels out) /\
  Forall (fun '(high, low) => high = low + line_width - 1) (labels out).

(** The symbols of a text: the text without its spaces. *)
Definition spaceless (text : string) : list ascii :=
  filter (fun c => negb (Ascii.eqb c " ")) (list_ascii_of_string text).

(** Groups of [hgroup] symbols taken from the left, the rightmost group
    keeping what is left over. *)
Definition left_to_right (hgroup : Z) (chunk : list ascii) : list (list ascii) :=
  pieces (Z.to_nat ((len chunk + hgroup - 1) / hgroup)) (Z.to_nat hgroup) chunk.

(** Groups of [hgroup] symbols of which only the first, the most
    significant one, may be shorter. *)
Definition short_group_first (hgroup : Z) (gs : list (list ascii)) : Prop :=
  match gs with
  | [] => True
  | first :: others =>
      1 <= len first <= hgroup /\ Forall (fun g => len g = hgroup) others
  end.

(** A text is the groups of [chunk], in order, joined by single spaces. *)
Definition right_grouped (hgroup : Z) (chunk : list ascii) (text : string) : Prop :=
  exists gs,
    List.concat gs = chunk /\
    short_group_first hgroup gs /\
    text = join (map string_of_list_ascii gs).

(** A text is the grouping of some chunk. *)
Definition from_chunk (hgroup : Z) (text : string) : Prop :=
  exists chunk, right_grouped hgroup chunk text.

(** The labels of [n] lines of [line_width] bits when the counter of the
    top line is [c]. *)
Fixpoint countdown (c line_width : Z) (n : nat) : list (Z * Z) :=
  match n with
  | O => []
  | S k => (c * line_width - 1, c * line_width - line_width)
             :: countdown (c - 1) line_width k
  end.

(** A text is what [_reversesplit] returns for some chunk, joined. *)
Definition joined_split (hgroup : Z) (text : string) : Prop :=
  exists chunk parts, _reversesplit chunk hgroup = Done parts /\ text = join parts.

(** ** The growth loop *)

Section Growth.

Variables self line_width : Z.
Hypothesis self_nonneg : 0 <= self.
Hypothesis width_pos : 0 < line_width.

Lemma bit_length_bound (v n : Z) :
  0 <= v -> 0 <= n -> (v < 2 ^ n <-> bit_length v <= n).
Proof.
  intros Hv Hn. unfold bit_length.
  destruct (Z.eqb_spec v 0) as [->|Hne].
  - split; intros _; [lia | apply Z.pow_pos_nonneg; lia].
  - rewrite Z.abs_eq by lia. split; intros H.
    + assert (Z.log2 v < n) by (apply Z.log2_lt_pow2; lia). lia.
    + apply Z.log2_lt_pow2; lia.
Qed.

Lemma shiftr_zero (v n : Z) :
  0 <= v -> 0 <= n -> (Z.shiftr v n =? 0) = (bit_length v <=? n).
Proof.
  intros Hv Hn. rewrite Z.shiftr_div_pow2 by lia.
  assert (Hp : 0 < 2 ^ n) by (apply Z.pow_pos_nonneg; lia).
  destruct (Z.leb_spec (bit_length v) n) as [H|H].
  - apply Z.eqb_eq, Z.div_small. split; [lia|]. now apply bit_length_bound.
  - apply Z.eqb_neq. intros E.
    assert (v < 2 ^ n); [|apply bit_length_bound in H0; lia].
    apply Z.div_small_iff in E; lia.
Qed.

Lemma grow_step (fuel : nat) (full_size : Z) :
  0 <= full_size ->
  grow (S fuel) self line_width full_size =
    if bit_length self <=? full_size then Some (Done full_size)
    else grow fuel self line_width (full_size + line_width).
Proof.
  intros Hfs. simpl. unfold rshift.
  destruct (Z.ltb_spec full_size 0); [lia|].
  now rewrite shiftr_zero.
Qed.

(** With enough fuel the loop stops at the first member of
    [full_size, full_size + line_width, ...] that holds the value. *)
Lemma grow_reaches (fuel : nat) (full_size : Z) :
  0 <= full_size ->
  (Z.to_nat (bit_length self - full_size) < fuel)%nat ->
  exists k, 0 <= k /\
    grow fuel self line_width full_size = Some (Done (full_size + k * line_width)) /\
    bit_length self <= full_size + k * line_width /\
    (forall j, 0 <= j < k -> full_size + j * line_width < bit_length self).
Proof.
  revert full_size. induction fuel as [|fuel IH]; intros fs Hfs Hfuel; [lia|].
  rewrite grow_step by assumption.
  destruct (Z.leb_spec (bit_length self) fs) as [Hle|Hgt].
  - exists 0. repeat split; try lia. now rewrite Z.add_0_r.
  - destruct (IH (fs + line_width)) as (k & Hk & Hg & Hb & Hmin); try lia.
    exists (k + 1). repeat split; try lia.
    + rewrite Hg. do 2 f_equal. lia.
    + intros j Hj. destruct (Z.eq_dec j 0) as [->|Hj0]; [lia|].
      specialize (Hmin (j - 1)). lia.
Qed.

End Growth.

(** What the loop guarantees when it is left. *)
Lemma grow_exit (fuel : nat) (self line_width full_size full_size' : Z) :
  grow fuel self line_width full_size = Some (Done full_size') ->
  0 <= full_size' /\ Z.shiftr self full_size' = 0 /\
  exists k, 0 <= k /\ full_size' = full_size + k * line_width.
Proof.
  revert full_size. induction fuel as [|fuel IH]; intros fs; simpl; [discriminate|].
  unfold rshift. destruct (Z.ltb_spec fs 0); [discriminate|].
  destruct (Z.eqb_spec (Z.shiftr self fs) 0) as [E|E].
  - intros [= <-]. repeat split; try assumption. exists 0. lia.
  - intros Hg. destruct (IH _ Hg) as (H0 & Hs & k & Hk & ->).
    repeat split; try assumption. exists (k + 1). lia.
Qed.

Lemma grow_fits (fuel : nat) (self line_width full_size full_size' : Z) :
  0 <= self ->
  grow fuel self line_width full_size = Some (Done full_size') ->
  self < 2 ^ full_size'.
Proof.
  intros Hv Hg. destruct (grow_exit _ _ _ _ _ Hg) as (H0 & Hs & _).
  apply bit_length_bound; try assumption.
  apply Z.leb_le. rewrite <- shiftr_zero by assumption. now apply Z.eqb_eq.
Qed.

(** ** The growth loop under the bound on the shift count *)





(** On a negative value every shift is negative, hence not zero: the loop
    is never left with a size. *)
Lemma grow_limited_negative (maxshift : Z) (fuel : nat) (self line_width full_size : Z) :
  self < 0 ->
  grow_limited maxshift fuel self line_width full_size = None \/
  grow_limited maxshift fuel self line_width full_size = Some (Raised ValueError) \/
  grow_limited maxshift fuel self line_width full_size = Some (Raised OverflowError).
Proof.
  intros Hv. revert full_size.
  induction fuel as [|fuel IH]; intros fs; [now left|].
  cbn [grow_limited]. unfold rshift_limited.
  destruct ((fs <? - maxshift - 1) || (maxshift <? fs)); [now right; right|].
  destruct (fs <? 0); [now right; left|].
  assert (Hs : Z.shiftr self fs < 0) by (apply Z.shiftr_neg; assumption).
  destruct (Z.eqb_spec (Z.shiftr self fs) 0); [lia | apply IH].
Qed.


(** ** Splitting from the least significant end *)

Section Pieces.

Context {A : Type}.
Implicit Types l : list A.

Lemma length_pieces (m n : nat) l : Datatypes.length (pieces m n l) = m.
Proof. revert l. induction m; intros l; simpl; [reflexivity | now rewrite IHm]. Qed.

Lemma concat_pieces (m n : nat) l :
  (Datatypes.length l <= m * n)%nat -> List.concat (pieces m n l) = l.
Proof.
  revert l. induction m as [|m IH]; intros l Hl; simpl.
  - destruct l; [reflexivity | simpl in Hl; lia].
  - rewrite IH; [apply firstn_skipn|]. rewrite length_skipn. lia.
Qed.

(** When [m] is the least count that covers [l], every piece but the last
    is full and the last one is not empty. *)
Lemma pieces_shape (m n : nat) l :
  (m * n < Datatypes.length l + n)%nat -> (Datatypes.length l <= m * n)%nat -> (0 < m)%nat ->
  exists front final,
    pieces m n l = front ++ [final] /\
    Forall (fun p => Datatypes.length p = n) front /\
    (1 <= Datatypes.length final <= n)%nat.
Proof.
  revert l. induction m as [|m IH]; intros l Hlo Hhi Hm; [lia|].
  destruct m as [|m].
  - exists [], (firstn n l). simpl. repeat split; try constructor.
    + rewrite length_firstn. lia.
    + rewrite length_firstn. lia.
  - destruct (IH (skipn n l)) as (front & final & E & Hf & Hl);
      try (rewrite length_skipn; lia); try lia.
    exists (firstn n l :: front), final.
    change (pieces (S (S m)) n l) with (firstn n l :: pieces (S m) n (skipn n l)).
    rewrite E. repeat split; try lia.
    constructor; [|assumption]. rewrite length_firstn. lia.
Qed.

Lemma slices_pieces (size : Z) (m a : nat) l :
  0 < size ->
  map (fun i => slice l i (i + size))
      (map (fun k => 0 + Z.of_nat k * size) (seq a m))
  = pieces m (Z.to_nat size) (skipn (a * Z.to_nat size) l).
Proof.
  intros Hs. revert a. induction m as [|m IH]; intros a; [reflexivity|].
  simpl. f_equal.
  - unfold slice. f_equal; [f_equal; lia|]. f_equal. nia.
  - rewrite IH. f_equal. rewrite skipn_skipn. f_equal.
Qed.

Lemma rev_concat_rev (ps : list (list A)) :
  List.concat (rev (map (@rev A) ps)) = rev (List.concat ps).
Proof.
  induction ps as [|p ps IH]; [reflexivity|].
  simpl. rewrite List.concat_app, IH, rev_app_distr. simpl. now rewrite app_nil_r.
Qed.

End Pieces.

Lemma _reversesplit_pos (binstring : string) (size : Z) :
  0 < size ->
  _reversesplit binstring size =
    Done (map string_of_list_ascii (groups size (list_ascii_of_string binstring))).
Proof.
  intros Hs. unfold _reversesplit, xrange, groups.
  destruct (Z.eqb_spec size 0); [lia|].
  destruct (Z.ltb_spec 0 size); [|lia].
  do 3 f_equal.
  rewrite <- (map_map (fun i => slice _ i (i + size)) (@rev ascii)).
  f_equal. rewrite (slices_pieces size _ 0) by assumption.
  simpl. unfold len. rewrite length_rev, Z.sub_0_r. reflexivity.
Qed.

Lemma _reversesplit_zero (binstring : string) :
  _reversesplit binstring 0 = Raised ValueError.
Proof. reflexivity. Qed.

Section Groups.

Variable size : Z.
Hypothesis size_pos : 0 < size.

Lemma groups_count_bound (l : list ascii) :
  let m := Z.to_nat ((len l + size - 1) / size) in
  (Datatypes.length l <= m * Z.to_nat size)%nat /\
  (m * Z.to_nat size < Datatypes.length l + Z.to_nat size)%nat.
Proof.
  intros m. unfold m, len.
  set (n := Z.of_nat (Datatypes.length l)).
  assert (Hn : 0 <= n) by lia.
  pose proof (Z.div_mod (n + size - 1) size ltac:(lia)) as Hd.
  pose proof (Z.mod_pos_bound (n + size - 1) size size_pos) as Hm.
  assert (0 <= (n + size - 1) / size) by (apply Z.div_pos; lia).
  split; nia.
Qed.

Lemma concat_groups (l : list ascii) : List.concat (groups size l) = l.
Proof.
  unfold groups. rewrite rev_concat_rev, concat_pieces.
  - apply rev_involutive.
  - rewrite length_rev. apply groups_count_bound.
Qed.

Lemma length_groups (l : list ascii) :
  Datatypes.length (groups size l) = Z.to_nat ((len l + size - 1) / size).
Proof. unfold groups. now rewrite length_rev, length_map, length_pieces. Qed.

Lemma groups_nil : groups size [] = [].
Proof.
  unfold groups, len. simpl. rewrite Z.div_small by lia. reflexivity.
Qed.

(** The first group is the only one that may be short. *)
Lemma groups_shape (l : list ascii) :
  l <> [] ->
  exists first others,
    groups size l = first :: others /\
    1 <= len first <= size /\
    Forall (fun g => len g = size) others.
Proof.
  intros Hne. unfold groups.
  destruct (groups_count_bound l) as [Hhi Hlo]. cbv zeta in Hhi, Hlo.
  set (m := Z.to_nat ((len l + size - 1) / size)) in *.
  assert (Hm : (0 < m)%nat).
  { destruct m; [|lia]. destruct l; [congruence | simpl in Hhi; lia]. }
  destruct (pieces_shape m (Z.to_nat size) (rev l)) as (front & final & E & Hf & Hl);
    try (rewrite length_rev; lia); try assumption.
  rewrite E, map_app, rev_app_distr. simpl.
  exists (rev final), (rev (map (@rev ascii) front)). split; [reflexivity|]. split.
  - unfold len. rewrite length_rev. lia.
  - apply Forall_rev, Forall_map. revert Hf. apply Forall_impl.
    intros g Hg. unfold len. rewrite length_rev. lia.
Qed.

End Groups.

(** ** Reading numerals back *)

Section Numerals.

Variable base : Z.
Hypothesis base_range : 2 <= base <= 16.

Lemma digit_value_char (d : Z) :
  0 <= d < 16 -> digit_value (digit_char d) = Some d.
Proof.
  intros Hd.
  assert (H : d = 0 \/ d = 1 \/ d = 2 \/ d = 3 \/ d = 4 \/ d = 5 \/ d = 6 \/ d = 7 \/
              d = 8 \/ d = 9 \/ d = 10 \/ d = 11 \/ d = 12 \/ d = 13 \/ d = 14 \/
              d = 15) by lia.
  repeat (destruct H as [->|H]; [reflexivity|]). now subst.
Qed.

Lemma read_digit_char (a d : Z) :
  0 <= d < base ->
  read_digit base (Some a) (digit_char d) = Some (a * base + d).
Proof.
  intros Hd. unfold read_digit. rewrite digit_value_char by lia.
  destruct (Z.ltb_spec d base); [reflexivity | lia].
Qed.

Lemma is_symbol_char (d : Z) : 0 <= d < base -> is_symbol base (digit_char d) = true.
Proof.
  intros Hd. unfold is_symbol. rewrite digit_value_char by lia.
  apply Z.ltb_lt. lia.
Qed.

Lemma half_bound (fuel : nat) (n : Z) :
  0 < n < 2 ^ Z.of_nat (S fuel) -> 0 <= n / base < 2 ^ Z.of_nat fuel.
Proof.
  intros Hn. split; [apply Z.div_pos; lia|].
  apply Z.div_lt_upper_bound; [lia|].
  rewrite Nat2Z.inj_succ, Z.pow_succ_r in Hn by lia.
  assert (0 < 2 ^ Z.of_nat fuel) by (apply Z.pow_pos_nonneg; lia). nia.
Qed.

(** Reading the digits of [n] from zero gives [n]. *)
Lemma read_to_digits (fuel : nat) (n : Z) (acc : list ascii) :
  0 <= n < 2 ^ Z.of_nat fuel ->
  fold_left (read_digit base) (to_digits fuel base n acc) (Some 0)
  = fold_left (read_digit base) acc (Some n).
Proof.
  revert n acc. induction fuel as [|fuel IH]; intros n acc Hn.
  - simpl in *. replace n with 0 by lia. reflexivity.
  - cbn [to_digits]. destruct (Z.eqb_spec n 0) as [->|Hne]; [reflexivity|].
    rewrite IH by (apply half_bound; lia).
    cbn [fold_left]. rewrite read_digit_char by (apply Z.mod_pos_bound; lia).
    do 2 f_equal. pose proof (Z.div_mod n base ltac:(lia)). lia.
Qed.

Lemma symbols_to_digits (fuel : nat) (n : Z) (acc : list ascii) :
  Forall (fun c => is_symbol base c = true) acc ->
  Forall (fun c => is_symbol base c = true) (to_digits fuel base n acc).
Proof.
  revert n acc. induction fuel as [|fuel IH]; intros n acc Hacc; [assumption|].
  cbn [to_digits]. destruct (n =? 0); [assumption|].
  apply IH. constructor; [|assumption].
  apply is_symbol_char, Z.mod_pos_bound. lia.
Qed.

(** A number below [base ^ k] has at most [k] digits. *)
Lemma length_to_digits (fuel : nat) (n k : Z) (acc : list ascii) :
  0 <= k -> 0 <= n < base ^ k ->
  len (to_digits fuel base n acc) <= k + len acc.
Proof.
  revert n k acc. induction fuel as [|fuel IH]; intros n k acc Hk Hn.
  - simpl. lia.
  - cbn [to_digits]. destruct (Z.eqb_spec n 0); [lia|].
    assert (Hk1 : 0 < k).
    { destruct (Z.eq_dec k 0) as [->|]; [|lia]. rewrite Z.pow_0_r in Hn. lia. }
    specialize (IH (n / base) (k - 1) (digit_char (n mod base) :: acc)).
    unfold len in *. cbn [Datatypes.length] in IH.
    rewrite Nat2Z.inj_succ in IH.
    assert (0 <= n / base < base ^ (k - 1)); [|lia].
    split; [apply Z.div_pos; lia|].
    apply Z.div_lt_upper_bound; [lia|].
    replace k with (Z.succ (k - 1)) in Hn by lia.
    rewrite Z.pow_succ_r in Hn by lia. lia.
Qed.

Lemma log2_fuel (n : Z) : 0 < n -> 0 <= n < 2 ^ Z.of_nat (S (Z.to_nat (Z.log2 n))).
Proof.
  intros Hn. pose proof (Z.log2_nonneg n).
  rewrite Nat2Z.inj_succ, Z2Nat.id by assumption.
  pose proof (Z.log2_spec n Hn). lia.
Qed.

Lemma read_numeral (n : Z) :
  0 <= n -> fold_left (read_digit base) (numeral base n) (Some 0) = Some n.
Proof.
  intros Hn. unfold numeral. destruct (Z.eqb_spec n 0) as [->|Hne].
  - cbn [fold_left]. change "0"%char with (digit_char 0).
    rewrite read_digit_char by lia. reflexivity.
  - rewrite read_to_digits by (apply log2_fuel; lia). reflexivity.
Qed.

Lemma symbols_numeral (n : Z) :
  Forall (fun c => is_symbol base c = true) (numeral base n).
Proof.
  unfold numeral. destruct (n =? 0).
  - constructor; [|constructor]. change "0"%char with (digit_char 0).
    apply is_symbol_char. lia.
  - apply symbols_to_digits. constructor.
Qed.

Lemma numeral_nonempty (n : Z) : 0 <= n -> 1 <= len (numeral base n).
Proof.
  intros Hn. unfold numeral. destruct (Z.eqb_spec n 0) as [->|Hne].
  - unfold len. simpl. lia.
  - destruct (numeral base n) eqn:E; unfold numeral in E;
      destruct (Z.eqb_spec n 0); try lia.
    + pose proof (read_to_digits _ n [] (log2_fuel n ltac:(lia))) as R.
      rewrite E in R. simpl in R. injection R. lia.
    + rewrite E. unfold len. simpl. lia.
Qed.

Lemma length_numeral (n k : Z) :
  1 <= k -> 0 <= n < base ^ k -> len (numeral base n) <= k.
Proof.
  intros Hk Hn. unfold numeral. destruct (n =? 0).
  - unfold len. simpl. lia.
  - pose proof (length_to_digits (S (Z.to_nat (Z.log2 n))) n k [] ltac:(lia) Hn) as H.
    unfold len in *. simpl Datatypes.length in H at 2. lia.
Qed.

Lemma read_zeros (k : Z) (s : list ascii) :
  fold_left (read_digit base) (zeros k ++ s) (Some 0)
  = fold_left (read_digit base) s (Some 0).
Proof.
  unfold zeros. induction (Z.to_nat k) as [|m IH]; [reflexivity|].
  cbn [repeat app fold_left]. change "0"%char with (digit_char 0).
  rewrite read_digit_char by lia. rewrite Z.mul_0_l, Z.add_0_l. exact IH.
Qed.

Lemma symbols_zeros (k : Z) : Forall (fun c => is_symbol base c = true) (zeros k).
Proof.
  unfold zeros. induction (Z.to_nat k); constructor; [|assumption].
  change "0"%char with (digit_char 0). apply is_symbol_char. lia.
Qed.

Lemma len_zeros (k : Z) : len (zeros k) = Z.max 0 k.
Proof. unfold len, zeros. rewrite repeat_length. lia. Qed.

Lemma len_app (a b : list ascii) : len (a ++ b) = len a + len b.
Proof. unfold len. rewrite length_app. lia. Qed.

End Numerals.

(** ** The padded strings *)

Lemma list_ascii_of_append (a b : string) :
  list_ascii_of_string (a ++ b) = list_ascii_of_string a ++ list_ascii_of_string b.
Proof. induction a as [|c a IH]; simpl; [reflexivity | now rewrite IH]. Qed.

Lemma fmt_zero_padded_nonneg (base width n : Z) :
  0 <= n ->
  list_ascii_of_string (fmt_zero_padded base width n) = padded base width n.
Proof.
  intros Hn. unfold fmt_zero_padded, padded.
  rewrite list_ascii_of_string_of_list_ascii, Z.abs_eq by assumption.
  destruct (Z.ltb_spec n 0); [lia | reflexivity].
Qed.

Lemma _rawbin_nonneg (number padding : Z) :
  0 <= number ->
  list_ascii_of_string (_rawbin number padding) = padded 2 padding number.
Proof.
  intros Hn. unfold _rawbin, builtin_bin, padded.
  rewrite list_ascii_of_string_of_list_ascii.
  destruct (Z.ltb_spec number 0); [lia|].
  rewrite Z.abs_eq by assumption. cbn [app skipn].
  destruct (Z.ltb_spec padding (len (numeral 2 number))); [|reflexivity].
  unfold zeros. replace (Z.to_nat _) with O by lia. reflexivity.
Qed.

Section Padded.

Variables base width n : Z.
Hypothesis base_range : 2 <= base <= 16.
Hypothesis n_nonneg : 0 <= n.

Lemma int_of_padded : int_of base (padded base width n) = Some n.
Proof.
  unfold int_of. destruct (padded base width n) eqn:E.
  - pose proof (numeral_nonempty base base_range n n_nonneg) as H.
    apply (f_equal len) in E. unfold padded in E. rewrite len_app in E.
    unfold len in *. simpl in E. lia.
  - rewrite <- E. unfold padded.
    rewrite read_zeros by assumption. now apply read_numeral.
Qed.

Lemma symbols_padded :
  Forall (fun c => is_symbol base c = true) (padded base width n).
Proof.
  apply Forall_app. split; [now apply symbols_zeros | now apply symbols_numeral].
Qed.

(** A value below [base ^ width] fills exactly [width] symbols. *)
Lemma len_padded : 1 <= width -> n < base ^ width -> len (padded base width n) = width.
Proof.
  intros Hw Hn. unfold padded. rewrite len_app, len_zeros.
  pose proof (length_numeral base base_range n width Hw (conj n_nonneg Hn)). lia.
Qed.

End Padded.

(** ** The line loop *)

Lemma bind_print {B} (l : line) (k : unit -> io B) :
  bind (print l) k = (l :: fst (k tt), snd (k tt)).
Proof. unfold bind, print. destruct (k tt). reflexivity. Qed.

Lemma bind_lift_Done {A B} (a : A) (k : A -> io B) : bind (lift (Done a)) k = k a.
Proof. unfold bind, lift. destruct (k a). reflexivity. Qed.

Lemma bind_ret {A B} (a : A) (k : A -> io B) : bind (ret a) k = k a.
Proof. unfold bind, ret. destruct (k a). reflexivity. Qed.

Section Emit.

Variables line_width hgroup vgroup : Z.
Hypothesis hgroup_pos : 0 < hgroup.

Lemma emit_cons (chunk : list ascii) (rest : list string) (c : Z) :
  emit (string_of_list_ascii chunk :: rest) c line_width hgroup vgroup =
    print (Row (grouped hgroup chunk) (c * line_width - 1) (c * line_width - line_width)) ;;
    r <- lift (pymod (c - 1) vgroup) ;;
    (if r =? 0 then print Blank else ret tt) ;;
    emit rest (c - 1) line_width hgroup vgroup.
Proof.
  cbn [emit]. rewrite _reversesplit_pos by assumption.
  rewrite bind_lift_Done, list_ascii_of_string_of_list_ascii. reflexivity.
Qed.

Lemma emit_rows (tmp : list (list ascii)) (c : Z) :
  vgroup <> 0 ->
  emit (map string_of_list_ascii tmp) c line_width hgroup vgroup
  = (rows tmp c line_width hgroup vgroup, Done tt).
Proof.
  intros Hv. revert c. induction tmp as [|chunk rest IH]; intros c; [reflexivity|].
  cbn [map rows]. rewrite emit_cons, bind_print. unfold pymod.
  destruct (Z.eqb_spec vgroup 0); [contradiction|].
  rewrite bind_lift_Done.
  destruct ((c - 1) mod vgroup =? 0).
  - rewrite bind_print, IH. reflexivity.
  - rewrite bind_ret, IH. reflexivity.
Qed.

(** Whatever [emit] prints before it returns or raises, every text in it
    is a chunk of [tmp] grouped by [groups]. *)
Lemma emit_texts (tmp : list string) (c : Z) :
  Forall (fun text => exists chunk, In chunk tmp /\
                        text = grouped hgroup (list_ascii_of_string chunk))
         (texts (fst (emit tmp c line_width hgroup vgroup))).
Proof.
  revert c. induction tmp as [|chunk rest IH]; intros c; [constructor|].
  pose proof (emit_cons (list_ascii_of_string chunk) rest c) as E.
  rewrite string_of_list_ascii_of_string in E.
  rewrite E, bind_print. cbn [fst texts]. constructor.
  - exists chunk. split; [now left | reflexivity].
  - assert (Hrest : Forall (fun text => exists chunk0, In chunk0 (chunk :: rest) /\
                      text = grouped hgroup (list_ascii_of_string chunk0))
                    (texts (fst (emit rest (c - 1) line_width hgroup vgroup)))).
    { specialize (IH (c - 1)). revert IH. apply Forall_impl.
      intros t (ch & Hin & ->). exists ch. split; [now right | reflexivity]. }
    unfold pymod. destruct (vgroup =? 0); [constructor|].
    rewrite bind_lift_Done.
    destruct ((c - 1) mod vgroup =? 0).
    + rewrite bind_print. exact Hrest.
    + rewrite bind_ret. exact Hrest.
Qed.

Lemma texts_rows (tmp : list (list ascii)) (c : Z) :
  texts (rows tmp c line_width hgroup vgroup) = map (grouped hgroup) tmp.
Proof.
  revert c. induction tmp as [|chunk rest IH]; intros c; [reflexivity|].
  cbn [rows texts map]. f_equal.
  destruct ((c - 1) mod vgroup =? 0); apply IH.
Qed.

Lemma content_rows_length (tmp : list (list ascii)) (c : Z) :
  Datatypes.length (content (rows tmp c line_width hgroup vgroup))
  = Datatypes.length tmp.
Proof.
  revert c. induction tmp as [|chunk rest IH]; intros c; [reflexivity|].
  cbn [rows content filter is_row Datatypes.length]. f_equal.
  destruct ((c - 1) mod vgroup =? 0); apply IH.
Qed.

End Emit.

(** ** The layout the specification describes *)

Lemma ranges_partitions (n : nat) (line_width : Z) :
  0 < line_width -> partitions (Z.of_nat n * line_width - 1) (ranges n line_width).
Proof.
  intros Hw. induction n as [|n IH]; [reflexivity|].
  cbn [ranges partitions]. repeat split; [lia | exact IH].
Qed.

Lemma ranges_width (n : nat) (line_width : Z) :
  Forall (fun '(high, low) => high = low + line_width - 1) (ranges n line_width).
Proof. induction n as [|n IH]; constructor; [lia | exact IH]. Qed.

Section Aligned.

Variables line_width hgroup vgroup : Z.

(** When the counter starts at the number of chunks, the labels are the
    descending ranges. *)
Lemma labels_rows (tmp : list (list ascii)) :
  labels (rows tmp (Z.of_nat (Datatypes.length tmp)) line_width hgroup vgroup)
  = ranges (Datatypes.length tmp) line_width.
Proof.
  induction tmp as [|chunk rest IH]; [reflexivity|].
  cbn [rows labels Datatypes.length ranges].
  replace (Z.of_nat (S (Datatypes.length rest)) - 1)
    with (Z.of_nat (Datatypes.length rest)) by lia.
  f_equal; [f_equal; lia|].
  destruct (_ mod vgroup =? 0); exact IH.
Qed.

(** ... and the blank lines are where [with_separators] puts them. *)
Lemma rows_separated (tmp : list (list ascii)) :
  rows tmp (Z.of_nat (Datatypes.length tmp)) line_width hgroup vgroup
  = with_separators vgroup
      (content (rows tmp (Z.of_nat (Datatypes.length tmp)) line_width hgroup vgroup)).
Proof.
  induction tmp as [|chunk rest IH]; [reflexivity|].
  cbn [rows Datatypes.length].
  replace (Z.of_nat (S (Datatypes.length rest)) - 1)
    with (Z.of_nat (Datatypes.length rest)) by lia.
  assert (E : forall sep, sep = [] \/ sep = [Blank] ->
            content (sep ++ rows rest (Z.of_nat (Datatypes.length rest))
                              line_width hgroup vgroup)
            = content (rows rest (Z.of_nat (Datatypes.length rest))
                         line_width hgroup vgroup)).
  { intros sep [-> | ->]; reflexivity. }
  cbn [content filter is_row]. fold (content).
  change (filter is_row) with content. rewrite E.
  - cbn [with_separators]. rewrite content_rows_length. f_equal. f_equal. exact IH.
  - destruct (_ mod vgroup =? 0); auto.
Qed.

End Aligned.

Lemma groups_count_exact (size n : Z) (l : list ascii) :
  0 < size -> 0 <= n -> len l = n * size ->
  Z.of_nat (Datatypes.length (groups size l)) = n.
Proof.
  intros Hs Hn Hl. rewrite length_groups, Hl.
  replace (n * size + size - 1) with (n * size + (size - 1)) by lia.
  rewrite Z.div_add_l, (Z.div_small (size - 1)) by lia. lia.
Qed.

(** ** The validation test *)

Lemma check_passes (line_width full_size : Z) :
  0 <= line_width < full_size -> check line_width full_size = ret tt.
Proof.
  intros H. unfold check, pymod.
  destruct (Z.eqb_spec full_size 0); [lia|].
  rewrite bind_lift_Done, Z.mod_small, Z.eqb_refl by lia. reflexivity.
Qed.

Lemma check_raises (line_width full_size : Z) :
  0 < full_size <= line_width -> check line_width full_size = raise ValueError.
Proof.
  intros H. unfold check, pymod.
  destruct (Z.eqb_spec full_size 0); [lia|].
  rewrite bind_lift_Done.
  pose proof (Z.mod_pos_bound line_width full_size ltac:(lia)).
  destruct (Z.eqb_spec (line_width mod full_size) line_width); [lia | reflexivity].
Qed.

(** ** The bodies of [hex] and [bin] on a value that fits *)

Section Bodies.

Variables self line_width full_size hgroup vgroup : Z.
Hypothesis self_nonneg : 0 <= self.
Hypothesis hgroup_pos : 0 < hgroup.
Hypothesis vgroup_pos : 0 < vgroup.

Lemma hex_body_rows :
  4 <= line_width < full_size ->
  hex_body self line_width full_size hgroup vgroup =
    (HexHeader (line_width / 8)
       :: rows (groups (line_width / 4) (padded 16 (full_size / 4) self))
               (full_size / line_width) line_width hgroup vgroup,
     Done tt).
Proof.
  intros Hw. unfold hex_body. cbv zeta.
  assert (0 < line_width / 4) by (apply Z.div_str_pos; lia).
  rewrite check_passes, bind_ret, bind_print by lia.
  rewrite _reversesplit_pos, bind_lift_Done by assumption.
  unfold pydiv. destruct (Z.eqb_spec line_width 0); [lia|].
  rewrite bind_lift_Done, emit_rows by lia.
  rewrite fmt_zero_padded_nonneg by assumption. reflexivity.
Qed.

Lemma bin_body_rows :
  0 < line_width < full_size ->
  bin_body self line_width full_size hgroup vgroup =
    (BinHeader line_width
       :: rows (groups line_width (padded 2 full_size self))
               (full_size / line_width) line_width hgroup vgroup,
     Done tt).
Proof.
  intros Hw. unfold bin_body. cbv zeta.
  rewrite check_passes, bind_ret, bind_print by lia.
  rewrite _reversesplit_pos, bind_lift_Done by lia.
  unfold pydiv. destruct (Z.eqb_spec line_width 0); [lia|].
  rewrite bind_lift_Done, emit_rows by lia.
  rewrite _rawbin_nonneg by assumption. reflexivity.
Qed.

End Bodies.

(** ** Symbols of an output *)

Lemma filter_all {A} (f : A -> bool) (l : list A) :
  Forall (fun x => f x = true) l -> filter f l = l.
Proof.
  induction 1 as [|x l Hx _ IH]; [reflexivity|].
  simpl. now rewrite Hx, IH.
Qed.

Lemma filter_join (base : Z) (gs : list (list ascii)) :
  filter (is_symbol base) (list_ascii_of_string (join (map string_of_list_ascii gs)))
  = filter (is_symbol base) (List.concat gs).
Proof.
  induction gs as [|g rest IH]; [reflexivity|].
  destruct rest as [|g' rest].
  - simpl. now rewrite list_ascii_of_string_of_list_ascii, app_nil_r.
  - change (join (map string_of_list_ascii (g :: g' :: rest)))
      with (string_of_list_ascii g ++ " " ++ join (map string_of_list_ascii (g' :: rest)))%string.
    rewrite !list_ascii_of_append, list_ascii_of_string_of_list_ascii.
    change (List.concat (g :: g' :: rest)) with (g ++ List.concat (g' :: rest)).
    rewrite !filter_app, IH. reflexivity.
Qed.

Lemma symbols_rows (base : Z) (tmp : list (list ascii)) (c line_width hgroup vgroup : Z) :
  0 < hgroup ->
  symbols base (rows tmp c line_width hgroup vgroup)
  = filter (is_symbol base) (List.concat tmp).
Proof.
  intros Hh. unfold symbols. rewrite texts_rows.
  induction tmp as [|chunk rest IH]; [reflexivity|].
  cbn [map List.concat]. rewrite !filter_app, IH. f_equal.
  unfold grouped. rewrite filter_join, concat_groups by assumption. reflexivity.
Qed.

(** ** Properties of [hex] and [bin] *)

(** C1. For every non-negative [v], [hex] with the default parameters
    returns, and the hexadecimal symbols of its content lines, read top to
    bottom without the spaces, the blank lines, the header and the labels,
    parse back to [v]. *)
Theorem hex_round_trip (v : Z) (fuel : nat) :
  0 <= v -> (Z.to_nat (bit_length v) < fuel)%nat ->
  exists out,
    hex fuel v 72 576 8 8 = Some (out, Done tt) /\
    int_of 16 (symbols 16 out) = Some v.
Proof.
  intros Hv Hfuel.
  destruct (grow_reaches v 72 Hv ltac:(lia) fuel 576) as (k & Hk & Hg & _); try lia.
  unfold hex. rewrite Hg. cbn [run].
  rewrite hex_body_rows by lia.
  eexists. split; [reflexivity|].
  change (symbols 16 (?h :: ?r)) with (symbols 16 r).
  rewrite symbols_rows, concat_groups by (reflexivity || lia).
  rewrite filter_all by (apply symbols_padded; lia).
  apply int_of_padded; lia.
Qed.

Lemma hex_round_trip_witness :
  exists out,
    hex 17 62970 72 576 8 8 = Some (out, Done tt) /\
    int_of 16 (symbols 16 out) = Some 62970.
Proof. apply hex_round_trip; [lia | vm_compute; lia]. Defined.

(** C3. For a non-negative value and positive sizes, the [full_size] that
    [hex] and [bin] go on with is the first member of the sequence
    [full_size], [full_size + line_width], [full_size + 2 * line_width], ...
    that is at least the bit length of the value; it is a multiple of
    [line_width] when the given [full_size] is one. *)
Theorem grown_size_least (v line_width full_size hgroup vgroup : Z) (fuel : nat) :
  0 <= v -> 0 < line_width -> 0 < full_size ->
  (Z.to_nat (bit_length v) < fuel)%nat ->
  exists k,
    0 <= k /\
    hex fuel v line_width full_size hgroup vgroup
      = Some (hex_body v line_width (full_size + k * line_width) hgroup vgroup) /\
    bin fuel v line_width full_size hgroup vgroup
      = Some (bin_body v line_width (full_size + k * line_width) hgroup vgroup) /\
    bit_length v <= full_size + k * line_width /\
    (forall j, 0 <= j < k -> full_size + j * line_width < bit_length v) /\
    ((line_width | full_size) -> (line_width | full_size + k * line_width)).
Proof.
  intros Hv Hw Hfs Hfuel.
  destruct (grow_reaches v line_width Hv Hw fuel full_size)
    as (k & Hk & Hg & Hb & Hmin); try lia.
  exists k. unfold hex, bin. rewrite Hg. cbn [run].
  repeat split; try assumption.
  intros Hd. apply Z.divide_add_r; [assumption|]. apply Z.divide_factor_r.
Qed.

Lemma grown_size_least_witness :
  exists k,
    0 <= k /\
    hex 30 (2 ^ 20) 5 8 4 8 = Some (hex_body (2 ^ 20) 5 (8 + k * 5) 4 8) /\
    bin 30 (2 ^ 20) 5 8 4 8 = Some (bin_body (2 ^ 20) 5 (8 + k * 5) 4 8) /\
    bit_length (2 ^ 20) <= 8 + k * 5 /\
    (forall j, 0 <= j < k -> 8 + j * 5 < bit_length (2 ^ 20)) /\
    ((5 | 8) -> (5 | 8 + k * 5)).
Proof. apply grown_size_least; try lia. vm_compute; lia. Defined.




(** C9, as the specification words it, fails: the test passes for the
    default sizes although [line_width] and [full_size] differ, and it
    raises in the single-line case where they are equal. *)
Lemma check_is_not_an_inequality_test :
  (check 72 576 = ret tt /\ 72 <> 576 /\
   exists out, hex 1 0 72 576 8 8 = Some (out, Done tt)) /\
  (check 72 72 = raise ValueError /\
   hex 1 0 72 72 8 8 = Some (raise ValueError) /\
   bin 1 0 16 16 4 8 = Some (raise ValueError)).
Proof.
  repeat split; try reflexivity; try lia.
  eexists. vm_compute. reflexivity.
Qed.

(** C9, amended.  For positive sizes the test raises [ValueError] exactly
    when the grown [full_size] is at most [line_width] and passes exactly
    when [line_width] is below it; [hex] and [bin] raise it, before
    printing anything, in exactly the same case. *)
Theorem check_raises_iff_not_below (v line_width full_size hgroup vgroup full_size' : Z)
    (fuel : nat) :
  0 < line_width -> 0 < full_size' ->
  grow fuel v line_width full_size = Some (Done full_size') ->
  (check line_width full_size' = raise ValueError <-> full_size' <= line_width) /\
  (check line_width full_size' = ret tt <-> line_width < full_size') /\
  (hex fuel v line_width full_size hgroup vgroup = Some (raise ValueError)
     <-> full_size' <= line_width) /\
  (bin fuel v line_width full_size hgroup vgroup = Some (raise ValueError)
     <-> full_size' <= line_width).
Proof.
  intros Hw Hfs Hg. unfold hex, bin. rewrite Hg. cbn [run].
  unfold hex_body, bin_body.
  destruct (Z.le_gt_cases full_size' line_width) as [Hle|Hlt].
  - rewrite check_raises by lia.
    repeat split; intros; reflexivity || lia || discriminate.
  - rewrite check_passes by lia. rewrite !bind_ret. cbv zeta. rewrite !bind_print.
    repeat split; intros; reflexivity || lia || discriminate.
Qed.

Lemma check_raises_iff_not_below_witness :
  (check 72 576 = raise ValueError <-> 576 <= 72) /\
  (check 72 576 = ret tt <-> 72 < 576) /\
  (hex 1 62970 72 576 8 8 = Some (raise ValueError) <-> 576 <= 72) /\
  (bin 1 62970 72 576 8 8 = Some (raise ValueError) <-> 576 <= 72).
Proof.
  apply (check_raises_iff_not_below 62970 72 576 8 8 576 1); [lia | lia | reflexivity].
Defined.

(** C2 is what the message of the raised error announces, but not what the
    test does: a [full_size] that is an exact multiple of [line_width] is
    refused when the two are equal, and sizes that do not divide are let
    through; [hex] with a [line_width] below 4 raises a [ValueError] of
    another origin (a zero step handed to [xrange]) after the header. *)
Theorem check_is_not_a_divisibility_test :
  (72 mod 72 = 0 /\ hex 1 0 72 72 8 8 = Some ([], Raised ValueError)) /\
  (8 mod 5 <> 0 /\
   bin 1 0 5 8 4 8
     = Some ([BinHeader 5; Row "000" 4 0; Blank; Row "0 0000" (-1) (-5)], Done tt)) /\
  (8 mod 2 = 0 /\ hex 1 0 2 8 8 8 = Some ([HexHeader 0], Raised ValueError)).
Proof. repeat split; vm_compute; congruence. Qed.

(** ** Calls whose sizes are aligned *)

Section AlignedCalls.

Variables v line_width full_size hgroup vgroup full_size' : Z.
Variable fuel : nat.
Hypothesis v_nonneg : 0 <= v.
Hypothesis width_pos : 0 < line_width.
Hypothesis hgroup_pos : 0 < hgroup.
Hypothesis vgroup_pos : 0 < vgroup.
Hypothesis grown : grow fuel v line_width full_size = Some (Done full_size').
Hypothesis passes : line_width < full_size'.
Hypothesis multiple : (line_width | full_size').

(** [bin] cuts [full_size'] bits into [full_size' / line_width] chunks. *)
Lemma bin_aligned :
  exists tmp,
    Z.of_nat (Datatypes.length tmp) = full_size' / line_width /\
    bin fuel v line_width full_size hgroup vgroup =
      Some (BinHeader line_width
              :: rows tmp (Z.of_nat (Datatypes.length tmp)) line_width hgroup vgroup,
            Done tt).
Proof.
  exists (groups line_width (padded 2 full_size' v)).
  assert (Hn : Z.of_nat (Datatypes.length (groups line_width (padded 2 full_size' v)))
               = full_size' / line_width).
  { destruct multiple as [q Hq].
    apply groups_count_exact; try assumption.
    - apply Z.div_pos; lia.
    - rewrite len_padded; try lia.
      + rewrite Hq, Z.div_mul by lia. reflexivity.
      + now apply (grow_fits fuel v line_width full_size). }
  split; [exact Hn|].
  unfold bin. rewrite grown. cbn [run].
  rewrite bin_body_rows, Hn by lia. reflexivity.
Qed.

(** [hex] does the same when a line holds whole hexadecimal symbols. *)
Lemma hex_aligned :
  (4 | line_width) ->
  exists tmp,
    Z.of_nat (Datatypes.length tmp) = full_size' / line_width /\
    hex fuel v line_width full_size hgroup vgroup =
      Some (HexHeader (line_width / 8)
              :: rows tmp (Z.of_nat (Datatypes.length tmp)) line_width hgroup vgroup,
            Done tt).
Proof.
  intros [a Ha]. destruct multiple as [q Hq].
  assert (Ha0 : 0 < a) by lia.
  assert (Hq0 : 0 < q) by nia.
  assert (Hw4 : line_width / 4 = a) by (rewrite Ha; apply Z.div_mul; lia).
  assert (Hf4 : full_size' / 4 = q * a).
  { rewrite Hq, Ha, Z.mul_assoc. apply Z.div_mul. lia. }
  exists (groups (line_width / 4) (padded 16 (full_size' / 4) v)).
  assert (Hn : Z.of_nat (Datatypes.length
                 (groups (line_width / 4) (padded 16 (full_size' / 4) v)))
               = full_size' / line_width).
  { replace (full_size' / line_width) with q
      by (rewrite Hq; symmetry; apply Z.div_mul; lia).
    apply groups_count_exact; try lia.
    rewrite Hw4, Hf4. apply len_padded; try lia; try nia.
    change 16 with (2 ^ 4). rewrite <- Z.pow_mul_r by lia.
    replace (4 * (q * a)) with full_size' by lia.
    now apply (grow_fits fuel v line_width full_size). }
  split; [exact Hn|].
  unfold hex. rewrite grown. cbn [run].
  rewrite hex_body_rows, Hn by lia. reflexivity.
Qed.

End AlignedCalls.

Lemma rows_descending (line_width full_size hgroup vgroup : Z)
    (header : line) (tmp : list (list ascii)) :
  0 < line_width -> (line_width | full_size) -> is_row header = false ->
  Z.of_nat (Datatypes.length tmp) = full_size / line_width ->
  descending_labels line_width full_size
    (header :: rows tmp (Z.of_nat (Datatypes.length tmp)) line_width hgroup vgroup).
Proof.
  intros Hw [q Hq] Hh Hn. unfold descending_labels.
  assert (E : labels (header :: rows tmp (Z.of_nat (Datatypes.length tmp))
                                 line_width hgroup vgroup)
              = ranges (Datatypes.length tmp) line_width).
  { rewrite <- labels_rows with (hgroup := hgroup) (vgroup := vgroup).
    destruct header; try discriminate; reflexivity. }
  rewrite E. repeat split.
  - rewrite <- Hn, Nat2Z.id. reflexivity.
  - replace (full_size - 1) with (Z.of_nat (Datatypes.length tmp) * line_width - 1).
    + now apply ranges_partitions.
    + rewrite Hn, Hq, Z.div_mul by lia. reflexivity.
  - apply ranges_width.
Qed.

(** C4, as stated for [hex], fails when a line does not hold whole
    hexadecimal symbols: with 6-bit lines in 12 bits the test passes, 12 is
    a multiple of 6, and three lines come out, the last labelled [-1:-6]. *)
Lemma hex_labels_overrun :
  grow 1 0 6 12 = Some (Done 12) /\ 6 < 12 /\ 12 mod 6 = 0 /\
  exists out,
    hex 1 0 6 12 8 8 = Some (out, Done tt) /\
    labels out = [(11, 6); (5, 0); (-1, -6)] /\
    ~ descending_labels 6 12 out.
Proof.
  repeat split; try reflexivity.
  eexists. split; [vm_compute; reflexivity|]. split; [reflexivity|].
  intros [E _]. vm_compute in E. discriminate.
Qed.

(** C4, amended.  For a call whose grown [full_size] is a multiple of
    [line_width] and passes the test, the labels of [bin], and those of
    [hex] when [line_width] is a multiple of 4, are
    [[full_size-1 : full_size-line_width]] down to [[line_width-1 : 0]]:
    consecutive ranges of [line_width] bits that cut the bits
    [full_size-1 .. 0] without gap or overlap. *)
Theorem labels_partition (v line_width full_size hgroup vgroup full_size' : Z)
    (fuel : nat) :
  0 <= v -> 0 < line_width -> 0 < hgroup -> 0 < vgroup ->
  grow fuel v line_width full_size = Some (Done full_size') ->
  line_width < full_size' -> (line_width | full_size') ->
  (exists out,
     bin fuel v line_width full_size hgroup vgroup = Some (out, Done tt) /\
     descending_labels line_width full_size' out) /\
  ((4 | line_width) ->
   exists out,
     hex fuel v line_width full_size hgroup vgroup = Some (out, Done tt) /\
     descending_labels line_width full_size' out).
Proof.
  intros Hv Hw Hh Hvg Hg Hp Hm. split.
  - destruct (bin_aligned v line_width full_size hgroup vgroup full_size' fuel)
      as (tmp & Hn & E); try assumption.
    eexists. split; [exact E|]. now apply rows_descending.
  - intros H4.
    destruct (hex_aligned v line_width full_size hgroup vgroup full_size' fuel)
      as (tmp & Hn & E); try assumption.
    eexists. split; [exact E|]. now apply rows_descending.
Qed.

Lemma labels_partition_witness :
  (exists out,
     bin 9 (2 ^ 40) 16 32 4 8 = Some (out, Done tt) /\
     descending_labels 16 48 out) /\
  ((4 | 16) ->
   exists out,
     hex 9 (2 ^ 40) 16 32 4 8 = Some (out, Done tt) /\
     descending_labels 16 48 out).
Proof.
  apply (labels_partition (2 ^ 40) 16 32 4 8 48 9); try lia.
  - vm_compute. reflexivity.
  - exists 3. reflexivity.
Defined.

(** C5, as stated for [hex], fails on the same call: of its three lines
    the one followed by a blank line is the middle one, whose index from
    the bottom is 1, and the bottom line is followed by none. *)
Lemma hex_separator_misplaced :
  grow 1 0 6 12 = Some (Done 12) /\ 6 < 12 /\ 12 mod 6 = 0 /\
  exists out,
    hex 1 0 6 12 8 8 = Some (out, Done tt) /\
    out = [HexHeader 0; Row "0" 11 6; Row "0" 5 0; Blank; Row "0" (-1) (-6)] /\
    out <> HexHeader 0 :: with_separators 8 (content out).
Proof.
  repeat split; try reflexivity.
  eexists. split; [vm_compute; reflexivity|]. split; [reflexivity|].
  vm_compute. discriminate.
Qed.

(** C5, amended.  For a call whose grown [full_size] is a multiple of
    [line_width] and passes the test, the output of [bin], and that of [hex]
    when [line_width] is a multiple of 4, is the header followed by the
    [full_size / line_width] content lines, with a blank line right after
    each content line whose index from the bottom is a multiple of [vgroup]
    and nowhere else. *)
Theorem separators_every_vgroup (v line_width full_size hgroup vgroup full_size' : Z)
    (fuel : nat) :
  0 <= v -> 0 < line_width -> 0 < hgroup -> 0 < vgroup ->
  grow fuel v line_width full_size = Some (Done full_size') ->
  line_width < full_size' -> (line_width | full_size') ->
  (exists out,
     bin fuel v line_width full_size hgroup vgroup = Some (out, Done tt) /\
     Z.of_nat (Datatypes.length (content out)) = full_size' / line_width /\
     out = BinHeader line_width :: with_separators vgroup (content out)) /\
  ((4 | line_width) ->
   exists out,
     hex fuel v line_width full_size hgroup vgroup = Some (out, Done tt) /\
     Z.of_nat (Datatypes.length (content out)) = full_size' / line_width /\
     out = HexHeader (line_width / 8) :: with_separators vgroup (content out)).
Proof.
  intros Hv Hw Hh Hvg Hg Hp Hm. split.
  - destruct (bin_aligned v line_width full_size hgroup vgroup full_size' fuel)
      as (tmp & Hn & E); try assumption.
    eexists. split; [exact E|].
    change (content (BinHeader line_width :: ?r)) with (content r).
    rewrite content_rows_length. split; [exact Hn|].
    f_equal. apply rows_separated.
  - intros H4.
    destruct (hex_aligned v line_width full_size hgroup vgroup full_size' fuel)
      as (tmp & Hn & E); try assumption.
    eexists. split; [exact E|].
    change (content (HexHeader (line_width / 8) :: ?r)) with (content r).
    rewrite content_rows_length. split; [exact Hn|].
    f_equal. apply rows_separated.
Qed.

Lemma separators_every_vgroup_witness :
  (exists out,
     bin 9 (2 ^ 40) 16 32 4 2 = Some (out, Done tt) /\
     Z.of_nat (Datatypes.length (content out)) = 48 / 16 /\
     out = BinHeader 16 :: with_separators 2 (content out)) /\
  ((4 | 16) ->
   exists out,
     hex 9 (2 ^ 40) 16 32 4 2 = Some (out, Done tt) /\
     Z.of_nat (Datatypes.length (content out)) = 48 / 16 /\
     out = HexHeader (16 / 8) :: with_separators 2 (content out)).
Proof.
  apply (separators_every_vgroup (2 ^ 40) 16 32 4 2 48 9); try lia.
  - vm_compute. reflexivity.
  - exists 3. reflexivity.
Defined.

(** C7. [hex] on [0xf5fa] with the default parameters prints the header,
    eight content lines and a closing blank line; the symbols of the first
    seven are all zeros, the last is [00 00000000 0000F5FA] with the label
    [[0071:0000]]. *)
Theorem hex_default_example (fuel : nat) :
  hex (S fuel) 0xf5fa 72 576 8 8 =
    Some ([HexHeader 9;
           Row "00 00000000 00000000" 575 504;
           Row "00 00000000 00000000" 503 432;
           Row "00 00000000 00000000" 431 360;
           Row "00 00000000 00000000" 359 288;
           Row "00 00000000 00000000" 287 216;
           Row "00 00000000 00000000" 215 144;
           Row "00 00000000 00000000" 143 72;
           Row "00 00000000 0000F5FA" 71 0;
           Blank], Done tt) /\
  render (Row "00 00000000 0000F5FA" 71 0) =
    " 00 00000000 0000F5FA                                              [0071:0000]"%string.
Proof. split; reflexivity. Qed.

(** C8. [bin] on [0xf5fa] with the default parameters prints the header,
    eight content lines of sixteen bits and a closing blank line; the last
    content line is [1111 0101 1111 1010] with the label [[0015:0000]]. *)
Theorem bin_default_example (fuel : nat) :
  bin (S fuel) 0xf5fa 16 128 4 8 =
    Some ([BinHeader 16;
           Row "0000 0000 0000 0000" 127 112;
           Row "0000 0000 0000 0000" 111 96;
           Row "0000 0000 0000 0000" 95 80;
           Row "0000 0000 0000 0000" 79 64;
           Row "0000 0000 0000 0000" 63 48;
           Row "0000 0000 0000 0000" 47 32;
           Row "0000 0000 0000 0000" 31 16;
           Row "1111 0101 1111 1010" 15 0;
           Blank], Done tt) /\
  render (Row "1111 0101 1111 1010" 15 0) =
    " 1111 0101 1111 1010                                               [0015:0000]"%string.
Proof. split; reflexivity. Qed.

(** ** Grouping within a line *)

Lemma groups_short_first (hgroup : Z) (chunk : list ascii) :
  0 < hgroup -> short_group_first hgroup (groups hgroup chunk).
Proof.
  intros Hh. destruct chunk as [|c chunk].
  - now rewrite groups_nil.
  - destruct (groups_shape hgroup Hh (c :: chunk)) as (first & others & E & H1 & H2);
      [discriminate|].
    rewrite E. split; assumption.
Qed.

Lemma grouped_right (hgroup : Z) (chunk : list ascii) :
  0 < hgroup -> right_grouped hgroup chunk (grouped hgroup chunk).
Proof.
  intros Hh. exists (groups hgroup chunk). repeat split.
  - now apply concat_groups.
  - now apply groups_short_first.
Qed.

Lemma fst_bind {A B} (m : io A) (k : A -> io B) :
  fst (bind m k) =
    fst m ++ match snd m with Done a => fst (k a) | Raised _ => [] end.
Proof.
  destruct m as [out [a|e]]; simpl.
  - destruct (k a). reflexivity.
  - now rewrite app_nil_r.
Qed.

Lemma check_silent (line_width full_size : Z) : fst (check line_width full_size) = [].
Proof.
  unfold check, pymod. destruct (full_size =? 0); [reflexivity|].
  rewrite bind_lift_Done. destruct (negb _); reflexivity.
Qed.

Section Texts.

Variables self line_width full_size hgroup vgroup : Z.
Hypothesis hgroup_pos : 0 < hgroup.

Lemma emit_right_grouped (tmp : list string) (c : Z) :
  Forall (from_chunk hgroup) (texts (fst (emit tmp c line_width hgroup vgroup))).
Proof.
  pose proof (emit_texts line_width hgroup vgroup hgroup_pos tmp c) as H.
  revert H. apply Forall_impl. intros text (chunk & _ & ->).
  exists (list_ascii_of_string chunk). now apply grouped_right.
Qed.

Lemma hex_body_right_grouped :
  Forall (from_chunk hgroup) (texts (fst (hex_body self line_width full_size hgroup vgroup))).
Proof.
  unfold hex_body. rewrite fst_bind, check_silent. cbn [app].
  destruct (snd (check line_width full_size)); [|constructor].
  rewrite bind_print. cbn [fst texts]. cbv zeta.
  rewrite fst_bind. cbn [lift fst snd app].
  destruct (_reversesplit _ _) as [tmp|]; [|constructor].
  rewrite fst_bind. cbn [lift fst snd app].
  destruct (pydiv _ _) as [c|]; [|constructor].
  apply emit_right_grouped.
Qed.

Lemma bin_body_right_grouped :
  Forall (from_chunk hgroup) (texts (fst (bin_body self line_width full_size hgroup vgroup))).
Proof.
  unfold bin_body. rewrite fst_bind, check_silent. cbn [app].
  destruct (snd (check line_width full_size)); [|constructor].
  cbv zeta. rewrite bind_print. cbn [fst texts].
  rewrite fst_bind. cbn [lift fst snd app].
  destruct (_reversesplit _ _) as [tmp|]; [|constructor].
  rewrite fst_bind. cbn [lift fst snd app].
  destruct (pydiv _ _) as [c|]; [|constructor].
  apply emit_right_grouped.
Qed.

End Texts.

(** C6, as stated, fails: [_reversesplit] counts the groups from the least
    significant end, so the short group of the eighteen symbols of a default
    [hex] line is the leftmost one, not the rightmost. *)
Lemma hex_groups_not_left_to_right :
  exists out,
    hex 1 0xf5fa 72 576 8 8 = Some (out, Done tt) /\
    last (texts out) ""%string = "00 00000000 0000F5FA"%string /\
    join (map string_of_list_ascii
            (left_to_right 8 (spaceless (last (texts out) ""%string))))
      = "00000000 000000F5 FA"%string /\
    ~ Forall (fun text =>
                text = join (map string_of_list_ascii
                               (left_to_right 8 (spaceless text))))
             (texts out).
Proof.
  eexists. split; [vm_compute; reflexivity|].
  split; [reflexivity|]. split; [reflexivity|].
  intros H. inversion H as [|text rest E _]. vm_compute in E. discriminate.
Qed.

(** C6, amended.  [_reversesplit] cuts a chunk into groups of [hgroup]
    symbols counted from the right: the groups in order make up the chunk,
    every group but the first has [hgroup] symbols, and the first, most
    significant, group has between one and [hgroup].  The text of every
    content line that [hex] or [bin] prints is such groups joined by single
    spaces, most significant group first. *)
Theorem groups_from_the_right (hgroup : Z) :
  0 < hgroup ->
  (forall chunk,
     _reversesplit (string_of_list_ascii chunk) hgroup
       = Done (map string_of_list_ascii (groups hgroup chunk)) /\
     List.concat (groups hgroup chunk) = chunk /\
     short_group_first hgroup (groups hgroup chunk)) /\
  (forall tmp c line_width vgroup,
     0 < vgroup ->
     texts (fst (emit (map string_of_list_ascii tmp) c line_width hgroup vgroup))
       = map (fun chunk => join (map string_of_list_ascii (groups hgroup chunk))) tmp) /\
  (forall fuel v line_width full_size vgroup out r,
     hex fuel v line_width full_size hgroup vgroup = Some (out, r) \/
     bin fuel v line_width full_size hgroup vgroup = Some (out, r) ->
     Forall (from_chunk hgroup) (texts out)).
Proof.
  intros Hh. split; [|split].
  - intros chunk.
    rewrite _reversesplit_pos, list_ascii_of_string_of_list_ascii by assumption.
    repeat split.
    + now apply concat_groups.
    + now apply groups_short_first.
  - intros tmp c line_width vgroup Hv.
    rewrite emit_rows by lia. cbn [fst]. apply texts_rows.
  - intros fuel v line_width full_size vgroup out r.
    unfold hex, bin.
    destruct (grow fuel v line_width full_size) as [[fs'|e]|]; cbn [run].
    + intros [[= E] | [= E]].
      * replace out with (fst (hex_body v line_width fs' hgroup vgroup))
          by (now rewrite E).
        now apply hex_body_right_grouped.
      * replace out with (fst (bin_body v line_width fs' hgroup vgroup))
          by (now rewrite E).
        now apply bin_body_right_grouped.
    + intros [[= <- _] | [= <- _]]; constructor.
    + intros [|]; discriminate.
Qed.

Lemma groups_from_the_right_witness :
  (let chunk := list_ascii_of_string "00000000000000F5FA" in
   _reversesplit "00000000000000F5FA" 8
     = Done (map string_of_list_ascii (groups 8 chunk)) /\
   List.concat (groups 8 chunk) = chunk /\
   short_group_first 8 (groups 8 chunk)) /\
  (forall out r,
     hex 1 0xf5fa 72 576 8 8 = Some (out, r) \/
     bin 1 0xf5fa 72 576 8 8 = Some (out, r) ->
     Forall (from_chunk 8) (texts out)).
Proof.
  destruct (groups_from_the_right 8 ltac:(lia)) as (H1 & _ & H3). split.
  - apply (H1 (list_ascii_of_string "00000000000000F5FA")).
  - intros out r. apply (H3 1%nat 0xf5fa 72 576 8 out r).
Defined.

(** ** Further properties: round trips *)

(** X1. Whatever the layout, no symbol is lost: for a non-negative value
    and positive group sizes, once the grown [full_size] is above
    [line_width], the symbols of the content lines of [bin] read back in
    base 2 as the value, and, when a line holds at least one hexadecimal
    symbol, those of [hex] read back in base 16 as the value. *)
Theorem round_trip_any_layout (v line_width full_size hgroup vgroup full_size' : Z)
    (fuel : nat) :
  0 <= v -> 0 < hgroup -> 0 < vgroup ->
  grow fuel v line_width full_size = Some (Done full_size') ->
  line_width < full_size' ->
  (0 < line_width ->
   exists out,
     bin fuel v line_width full_size hgroup vgroup = Some (out, Done tt) /\
     int_of 2 (symbols 2 out) = Some v) /\
  (4 <= line_width ->
   exists out,
     hex fuel v line_width full_size hgroup vgroup = Some (out, Done tt) /\
     int_of 16 (symbols 16 out) = Some v).
Proof.
  intros Hv Hh Hvg Hg Hlt. unfold hex, bin. rewrite Hg. cbn [run]. split; intros Hw.
  - rewrite bin_body_rows by lia. eexists. split; [reflexivity|].
    change (symbols 2 (?h :: ?r)) with (symbols 2 r).
    rewrite symbols_rows, concat_groups by lia.
    rewrite filter_all by (apply symbols_padded; lia).
    apply int_of_padded; lia.
  - assert (0 < line_width / 4) by (apply Z.div_str_pos; lia).
    rewrite hex_body_rows by lia. eexists. split; [reflexivity|].
    change (symbols 16 (?h :: ?r)) with (symbols 16 r).
    rewrite symbols_rows, concat_groups by lia.
    rewrite filter_all by (apply symbols_padded; lia).
    apply int_of_padded; lia.
Qed.

Lemma round_trip_any_layout_witness :
  (0 < 5 ->
   exists out,
     bin 30 (2 ^ 20) 5 8 3 2 = Some (out, Done tt) /\
     int_of 2 (symbols 2 out) = Some (2 ^ 20)) /\
  (4 <= 5 ->
   exists out,
     hex 30 (2 ^ 20) 5 8 3 2 = Some (out, Done tt) /\
     int_of 16 (symbols 16 out) = Some (2 ^ 20)).
Proof.
  apply (round_trip_any_layout (2 ^ 20) 5 8 3 2 23 30); try lia.
  vm_compute. reflexivity.
Defined.

Section ReadBound.

Variable base : Z.
Hypothesis base_range : 2 <= base <= 16.

Lemma index_of_range (c : ascii) (l : list ascii) (i d : Z) :
  index_of c l i = Some d -> i <= d < i + len l.
Proof.
  revert i. induction l as [|x l IH]; intros i; simpl; [discriminate|].
  unfold len in *. cbn [Datatypes.length]. rewrite Nat2Z.inj_succ.
  destruct (Ascii.eqb c x).
  - intros [= <-]. lia.
  - intros H. apply IH in H. lia.
Qed.

Lemma read_None (l : list ascii) : fold_left (read_digit base) l None = None.
Proof. induction l as [|c l IH]; [reflexivity | exact IH]. Qed.

(** A numeral of [len l] symbols read after [a] stays within the
    [base ^ len l] numbers that start with [a]. *)
Lemma read_bound (l : list ascii) (a n : Z) :
  0 <= a ->
  fold_left (read_digit base) l (Some a) = Some n ->
  a * base ^ len l <= n < (a + 1) * base ^ len l.
Proof.
  revert a. induction l as [|c l IH]; intros a Ha.
  - simpl. intros [= <-]. unfold len. simpl. lia.
  - cbn [fold_left]. unfold read_digit at 2.
    destruct (digit_value c) as [d|] eqn:Ed; [|now rewrite read_None].
    destruct (Z.ltb_spec d base) as [Hd|Hd]; [|now rewrite read_None].
    apply index_of_range in Ed.
    intros H. apply IH in H; [|nia].
    unfold len in *. cbn [Datatypes.length]. rewrite Nat2Z.inj_succ.
    rewrite Z.pow_succ_r by lia.
    assert (0 < base ^ Z.of_nat (Datatypes.length l)) by (apply Z.pow_pos_nonneg; lia).
    nia.
Qed.

End ReadBound.

(** The binary numeral of a positive number has as many digits as the
    number has bits. *)
Lemma len_numeral_2 (n : Z) : 0 <= n -> len (numeral 2 n) = Z.max 1 (bit_length n).
Proof.
  intros Hn. destruct (Z.eq_dec n 0) as [->|Hne]; [reflexivity|].
  pose proof (read_numeral 2 ltac:(lia) n Hn) as R.
  apply (read_bound 2 ltac:(lia)) in R; [|lia].
  pose proof (numeral_nonempty 2 ltac:(lia) n Hn) as H1.
  assert (Hb : bit_length n <= len (numeral 2 n)).
  { apply bit_length_bound; lia. }
  assert (Hbl : 1 <= bit_length n).
  { unfold bit_length. destruct (Z.eqb_spec n 0); [lia|].
    pose proof (Z.log2_nonneg (Z.abs n)). lia. }
  assert (Hu : len (numeral 2 n) <= bit_length n).
  { apply length_numeral; try lia. split; [lia|].
    apply bit_length_bound; lia. }
  lia.
Qed.

(** X2. [_rawbin] of a non-negative number reads back in base 2 as the
    number, and it never cuts: its length is the padding or the number of
    bits of the number (one for zero), whichever is larger. *)
Theorem _rawbin_round_trip (number padding : Z) :
  0 <= number ->
  int_of 2 (list_ascii_of_string (_rawbin number padding)) = Some number /\
  len (list_ascii_of_string (_rawbin number padding))
    = Z.max padding (Z.max 1 (bit_length number)).
Proof.
  intros Hn. rewrite _rawbin_nonneg by assumption. split.
  - apply int_of_padded; lia.
  - unfold padded. rewrite len_app, len_zeros, len_numeral_2 by assumption. lia.
Qed.

Lemma _rawbin_round_trip_witness :
  int_of 2 (list_ascii_of_string (_rawbin 0xf5fa 8)) = Some 0xf5fa /\
  len (list_ascii_of_string (_rawbin 0xf5fa 8)) = Z.max 8 (Z.max 1 (bit_length 0xf5fa)).
Proof. apply _rawbin_round_trip. lia. Defined.

(** ** Further properties: degenerate parameters *)

Lemma grow_fitting (fuel : nat) (v line_width full_size : Z) :
  0 <= v -> 0 <= full_size -> bit_length v <= full_size ->
  grow (S fuel) v line_width full_size = Some (Done full_size).
Proof.
  intros Hv Hfs Hb. rewrite grow_step by assumption.
  destruct (Z.leb_spec (bit_length v) full_size); [reflexivity | lia].
Qed.

(** With a zero [line_width] a size that is too small stays too small. *)
Lemma grow_stuck (fuel : nat) (v full_size : Z) :
  0 <= v -> 0 <= full_size -> full_size < bit_length v ->
  grow fuel v 0 full_size = None.
Proof.
  intros Hv Hfs Hb. induction fuel as [|fuel IH]; [reflexivity|].
  rewrite grow_step by assumption.
  destruct (Z.leb_spec (bit_length v) full_size); [lia|].
  now rewrite Z.add_0_r.
Qed.





Lemma _reversesplit_negative (binstring : string) (size : Z) :
  size < 0 -> _reversesplit binstring size = Done [].
Proof.
  intros Hs. unfold _reversesplit, xrange.
  destruct (Z.eqb_spec size 0); [lia|].
  destruct (Z.ltb_spec 0 size); [lia|].
  set (l := rev (list_ascii_of_string binstring)).
  assert (Hc : (0 - len l - size - 1) / - size < 1).
  { apply Z.div_lt_upper_bound; unfold len; lia. }
  replace (Z.to_nat _) with O by lia. reflexivity.
Qed.

Lemma groups_nonempty (size : Z) (l : list ascii) :
  0 < size -> l <> [] -> groups size l <> [].
Proof.
  intros Hs Hl. destruct (groups_shape size Hs l Hl) as (first & others & E & _).
  rewrite E. discriminate.
Qed.

Lemma padded_nonempty (base width n : Z) :
  2 <= base <= 16 -> 0 <= n -> padded base width n <> [].
Proof.
  intros Hb Hn E. pose proof (numeral_nonempty base Hb n Hn) as H.
  apply (f_equal len) in E. unfold padded in E. rewrite len_app in E.
  unfold len in *. simpl in E. lia.
Qed.

(** X3. A [line_width] below 4 leaves [hex] no whole symbol per line: once
    the test is passed, [hex] prints its header, ["(0B per line):"], and
    then raises [ValueError], for [xrange] is handed a zero step. *)
Theorem hex_narrow_line (v line_width full_size hgroup vgroup full_size' : Z)
    (fuel : nat) :
  0 <= line_width < 4 -> line_width < full_size' ->
  grow fuel v line_width full_size = Some (Done full_size') ->
  hex fuel v line_width full_size hgroup vgroup
    = Some ([HexHeader 0], Raised ValueError).
Proof.
  intros Hw Hlt Hg. unfold hex. rewrite Hg. cbn [run]. unfold hex_body.
  rewrite check_passes, bind_ret, bind_print by lia. cbv zeta.
  rewrite (Z.div_small line_width 4), (Z.div_small line_width 8) by lia.
  rewrite _reversesplit_zero. reflexivity.
Qed.

Lemma hex_narrow_line_witness :
  hex 1 5 3 8 8 8 = Some ([HexHeader 0], Raised ValueError).
Proof.
  apply (hex_narrow_line 5 3 8 8 8 8 1); [lia | lia | reflexivity].
Defined.

(** X4. A zero [hgroup] is met only at the first chunk: for a non-negative
    value that passes the test, [bin], and [hex] with a [line_width] of at
    least 4, print the header and raise [ValueError] before any content
    line. *)
Theorem zero_hgroup_raises (v line_width full_size vgroup full_size' : Z) (fuel : nat) :
  0 <= v -> 0 < line_width < full_size' ->
  grow fuel v line_width full_size = Some (Done full_size') ->
  bin fuel v line_width full_size 0 vgroup
    = Some ([BinHeader line_width], Raised ValueError) /\
  (4 <= line_width ->
   hex fuel v line_width full_size 0 vgroup
     = Some ([HexHeader (line_width / 8)], Raised ValueError)).
Proof.
  intros Hv Hw Hg. unfold hex, bin. rewrite Hg. cbn [run]. split.
  - unfold bin_body. cbv zeta.
    rewrite check_passes, bind_ret, bind_print by lia.
    rewrite _reversesplit_pos, bind_lift_Done by lia.
    unfold pydiv. destruct (Z.eqb_spec line_width 0); [lia|].
    rewrite bind_lift_Done, _rawbin_nonneg by assumption.
    destruct (groups line_width (padded 2 full_size' v)) as [|chunk rest] eqn:E.
    + apply groups_nonempty in E; [contradiction | lia |].
      apply padded_nonempty; lia.
    + reflexivity.
  - intros H4. unfold hex_body. cbv zeta.
    assert (0 < line_width / 4) by (apply Z.div_str_pos; lia).
    rewrite check_passes, bind_ret, bind_print by lia.
    rewrite _reversesplit_pos, bind_lift_Done by lia.
    unfold pydiv. destruct (Z.eqb_spec line_width 0); [lia|].
    rewrite bind_lift_Done, fmt_zero_padded_nonneg by assumption.
    destruct (groups (line_width / 4) (padded 16 (full_size' / 4) v))
      as [|chunk rest] eqn:E.
    + apply groups_nonempty in E; [contradiction | lia |].
      apply padded_nonempty; lia.
    + reflexivity.
Qed.

Lemma zero_hgroup_raises_witness :
  bin 1 0xf5fa 16 128 0 8 = Some ([BinHeader 16], Raised ValueError) /\
  (4 <= 16 ->
   hex 1 0xf5fa 16 128 0 8 = Some ([HexHeader (16 / 8)], Raised ValueError)).
Proof.
  apply (zero_hgroup_raises 0xf5fa 16 128 8 128 1); [lia | lia | reflexivity].
Defined.

(** X5. A zero [vgroup] is met after the first content line: for a
    non-negative value that passes the test and a positive [hgroup], [bin],
    and [hex] with a [line_width] of at least 4, print the header and the
    top line and then raise [ZeroDivisionError]. *)
Theorem zero_vgroup_raises (v line_width full_size hgroup full_size' : Z) (fuel : nat) :
  0 <= v -> 0 < hgroup -> 0 < line_width < full_size' ->
  grow fuel v line_width full_size = Some (Done full_size') ->
  let c := full_size' / line_width in
  (exists text,
     bin fuel v line_width full_size hgroup 0
       = Some ([BinHeader line_width;
                Row text (c * line_width - 1) (c * line_width - line_width)],
               Raised ZeroDivisionError)) /\
  (4 <= line_width ->
   exists text,
     hex fuel v line_width full_size hgroup 0
       = Some ([HexHeader (line_width / 8);
                Row text (c * line_width - 1) (c * line_width - line_width)],
               Raised ZeroDivisionError)).
Proof.
  intros Hv Hh Hw Hg c. unfold hex, bin. rewrite Hg. cbn [run]. split.
  - unfold bin_body. cbv zeta.
    rewrite check_passes, bind_ret, bind_print by lia.
    rewrite _reversesplit_pos, bind_lift_Done by lia.
    unfold pydiv. destruct (Z.eqb_spec line_width 0); [lia|].
    rewrite bind_lift_Done, _rawbin_nonneg by assumption.
    destruct (groups line_width (padded 2 full_size' v)) as [|chunk rest] eqn:E.
    + apply groups_nonempty in E; [contradiction | lia |].
      apply padded_nonempty; lia.
    + cbn [map]. rewrite emit_cons, bind_print by assumption.
      eexists. reflexivity.
  - intros H4. unfold hex_body. cbv zeta.
    assert (0 < line_width / 4) by (apply Z.div_str_pos; lia).
    rewrite check_passes, bind_ret, bind_print by lia.
    rewrite _reversesplit_pos, bind_lift_Done by lia.
    unfold pydiv. destruct (Z.eqb_spec line_width 0); [lia|].
    rewrite bind_lift_Done, fmt_zero_padded_nonneg by assumption.
    destruct (groups (line_width / 4) (padded 16 (full_size' / 4) v))
      as [|chunk rest] eqn:E.
    + apply groups_nonempty in E; [contradiction | lia |].
      apply padded_nonempty; lia.
    + cbn [map]. rewrite emit_cons, bind_print by assumption.
      eexists. reflexivity.
Qed.

Lemma zero_vgroup_raises_witness :
  let c := 128 / 16 in
  (exists text,
     bin 1 0xf5fa 16 128 4 0
       = Some ([BinHeader 16; Row text (c * 16 - 1) (c * 16 - 16)],
               Raised ZeroDivisionError)) /\
  (4 <= 16 ->
   exists text,
     hex 1 0xf5fa 16 128 4 0
       = Some ([HexHeader (16 / 8); Row text (c * 16 - 1) (c * 16 - 16)],
               Raised ZeroDivisionError)).
Proof.
  apply (zero_vgroup_raises 0xf5fa 16 128 4 128 1); [lia | lia | lia | reflexivity].
Defined.

Section AnyTexts.

Variables self line_width full_size hgroup vgroup : Z.

(** Whatever the parameters, a text that is printed is the joined result
    of [_reversesplit] on some chunk. *)
Lemma emit_texts_any (tmp : list string) (c : Z) :
  Forall (joined_split hgroup) (texts (fst (emit tmp c line_width hgroup vgroup))).
Proof.
  revert c. induction tmp as [|chunk rest IH]; intros c; [constructor|].
  cbn [emit]. destruct (_reversesplit chunk hgroup) as [parts|e] eqn:E; [|constructor].
  rewrite bind_lift_Done, bind_print. cbn [fst texts]. constructor.
  - exists chunk, parts. split; [exact E | reflexivity].
  - unfold pymod. destruct (vgroup =? 0); [constructor|].
    rewrite bind_lift_Done.
    destruct ((c - 1) mod vgroup =? 0).
    + rewrite bind_print. apply IH.
    + rewrite bind_ret. apply IH.
Qed.

Lemma hex_body_texts_any :
  Forall (joined_split hgroup)
         (texts (fst (hex_body self line_width full_size hgroup vgroup))).
Proof.
  unfold hex_body. rewrite fst_bind, check_silent. cbn [app].
  destruct (snd (check line_width full_size)); [|constructor].
  rewrite bind_print. cbn [fst texts]. cbv zeta.
  rewrite fst_bind. cbn [lift fst snd app].
  destruct (_reversesplit _ _) as [tmp|]; [|constructor].
  rewrite fst_bind. cbn [lift fst snd app].
  destruct (pydiv _ _) as [c|]; [|constructor].
  apply emit_texts_any.
Qed.

Lemma bin_body_texts_any :
  Forall (joined_split hgroup)
         (texts (fst (bin_body self line_width full_size hgroup vgroup))).
Proof.
  unfold bin_body. rewrite fst_bind, check_silent. cbn [app].
  destruct (snd (check line_width full_size)); [|constructor].
  cbv zeta. rewrite bind_print. cbn [fst texts].
  rewrite fst_bind. cbn [lift fst snd app].
  destruct (_reversesplit _ _) as [tmp|]; [|constructor].
  rewrite fst_bind. cbn [lift fst snd app].
  destruct (pydiv _ _) as [c|]; [|constructor].
  apply emit_texts_any.
Qed.

End AnyTexts.

(** X6. A negative size gives [_reversesplit] an empty range: it returns
    no group at all, whatever the string, so with a negative [hgroup] every
    content line that [hex] or [bin] prints has an empty text. *)
Theorem negative_hgroup_blanks (hgroup : Z) :
  hgroup < 0 ->
  (forall binstring, _reversesplit binstring hgroup = Done []) /\
  (forall fuel v line_width full_size vgroup out r,
     hex fuel v line_width full_size hgroup vgroup = Some (out, r) \/
     bin fuel v line_width full_size hgroup vgroup = Some (out, r) ->
     Forall (fun text => text = ""%string) (texts out)).
Proof.
  intros Hh. split.
  - intros s. now apply _reversesplit_negative.
  - intros fuel v line_width full_size vgroup out r.
    assert (Hempty : forall text, joined_split hgroup text -> text = ""%string).
    { intros text (chunk & parts & E & ->).
      rewrite _reversesplit_negative in E by assumption.
      injection E as <-. reflexivity. }
    unfold hex, bin.
    destruct (grow fuel v line_width full_size) as [[fs'|e]|]; cbn [run].
    + intros [[= E] | [= E]].
      * replace out with (fst (hex_body v line_width fs' hgroup vgroup))
          by (now rewrite E).
        eapply Forall_impl; [exact Hempty | apply hex_body_texts_any].
      * replace out with (fst (bin_body v line_width fs' hgroup vgroup))
          by (now rewrite E).
        eapply Forall_impl; [exact Hempty | apply bin_body_texts_any].
    + intros [[= <- _] | [= <- _]]; constructor.
    + intros [|]; discriminate.
Qed.

Lemma negative_hgroup_blanks_witness :
  (forall binstring, _reversesplit binstring (-4) = Done []) /\
  (forall fuel v line_width full_size vgroup out r,
     hex fuel v line_width full_size (-4) vgroup = Some (out, r) \/
     bin fuel v line_width full_size (-4) vgroup = Some (out, r) ->
     Forall (fun text => text = ""%string) (texts out)).
Proof. apply (negative_hgroup_blanks (-4)). lia. Defined.

(** X7. With a zero [line_width] and a positive [full_size], a non-negative
    value that fits has its header printed, with a zero width, and then
    [ValueError] raised, for [xrange] is handed a zero step; a value that
    does not fit keeps [hex] and [bin] in the growth loop for ever. *)
Theorem zero_line_width (v full_size hgroup vgroup : Z) :
  0 <= v -> 0 < full_size ->
  (bit_length v <= full_size ->
   forall fuel,
     hex (S fuel) v 0 full_size hgroup vgroup
       = Some ([HexHeader 0], Raised ValueError) /\
     bin (S fuel) v 0 full_size hgroup vgroup
       = Some ([BinHeader 0], Raised ValueError)) /\
  (full_size < bit_length v ->
   forall fuel,
     hex fuel v 0 full_size hgroup vgroup = None /\
     bin fuel v 0 full_size hgroup vgroup = None).
Proof.
  intros Hv Hfs. split; intros Hb fuel; unfold hex, bin.
  - rewrite grow_fitting by lia. cbn [run]. unfold hex_body, bin_body.
    rewrite check_passes by lia. rewrite !bind_ret. cbv zeta.
    rewrite !bind_print. split; reflexivity.
  - rewrite grow_stuck by lia. split; reflexivity.
Qed.

Lemma zero_line_width_witness :
  (bit_length 200 <= 8 ->
   forall fuel,
     hex (S fuel) 200 0 8 8 8 = Some ([HexHeader 0], Raised ValueError) /\
     bin (S fuel) 200 0 8 8 8 = Some ([BinHeader 0], Raised ValueError)) /\
  (8 < bit_length 200 ->
   forall fuel,
     hex fuel 200 0 8 8 8 = None /\ bin fuel 200 0 8 8 8 = None).
Proof. apply (zero_line_width 200 8 8 8); lia. Defined.



(** X9. A negative value never gets anything printed: whatever the
    parameters, the bound on the shift count and the fuel, [hex] and [bin]
    on it either are still in the growth loop or have raised, with an
    empty output, the [ValueError] of a negative shift count or the
    [OverflowError] of a shift count beyond the machine word. *)
Theorem negative_value_prints_nothing
    (maxshift v line_width full_size hgroup vgroup : Z) (fuel : nat) :
  v < 0 ->
  (hex_limited maxshift fuel v line_width full_size hgroup vgroup = None \/
   hex_limited maxshift fuel v line_width full_size hgroup vgroup
     = Some ([], Raised ValueError) \/
   hex_limited maxshift fuel v line_width full_size hgroup vgroup
     = Some ([], Raised OverflowError)) /\
  (bin_limited maxshift fuel v line_width full_size hgroup vgroup = None \/
   bin_limited maxshift fuel v line_width full_size hgroup vgroup
     = Some ([], Raised ValueError) \/
   bin_limited maxshift fuel v line_width full_size hgroup vgroup
     = Some ([], Raised OverflowError)).
Proof.
  intros Hv. unfold hex_limited, bin_limited.
  destruct (grow_limited_negative maxshift fuel v line_width full_size Hv)
    as [-> | [-> | ->]]; cbn [run]; split; auto.
Qed.

Lemma negative_value_prints_nothing_witness :
  (hex_limited (2 ^ 63 - 1) 5 (-3) (2 ^ 63) 4 8 8 = None \/
   hex_limited (2 ^ 63 - 1) 5 (-3) (2 ^ 63) 4 8 8 = Some ([], Raised ValueError) \/
   hex_limited (2 ^ 63 - 1) 5 (-3) (2 ^ 63) 4 8 8 = Some ([], Raised OverflowError)) /\
  (bin_limited (2 ^ 63 - 1) 5 (-3) (2 ^ 63) 4 8 8 = None \/
   bin_limited (2 ^ 63 - 1) 5 (-3) (2 ^ 63) 4 8 8 = Some ([], Raised ValueError) \/
   bin_limited (2 ^ 63 - 1) 5 (-3) (2 ^ 63) 4 8 8 = Some ([], Raised OverflowError)).
Proof. apply negative_value_prints_nothing. lia. Defined.

(** ** Further properties: what is printed *)

Lemma length_list_ascii (s : string) :
  Datatypes.length (list_ascii_of_string s) = String.length s.
Proof. induction s as [|c s IH]; simpl; [reflexivity | now rewrite IH]. Qed.

Lemma len_four_digits (n : Z) :
  0 <= n <= 9999 -> len (list_ascii_of_string (fmt_zero_padded 10 4 n)) = 4.
Proof.
  intros Hn. rewrite fmt_zero_padded_nonneg by lia.
  apply len_padded; lia.
Qed.

(** X10. The label column is aligned: for labels between 0 and 9999 the
    line printed for a content line has 13 characters more than its text
    filled up to 65 characters, 78 in all; a longer text is kept whole and
    pushes the label to the right. *)
Theorem render_row_width (chunk : string) (high low : Z) :
  0 <= high <= 9999 -> 0 <= low <= 9999 ->
  Z.of_nat (String.length (render (Row chunk high low)))
    = 13 + Z.max 65 (Z.of_nat (String.length chunk)).
Proof.
  intros Hh Hl. rewrite <- !length_list_ascii. cbn [render].
  rewrite !list_ascii_of_append. unfold ljust.
  rewrite list_ascii_of_string_of_list_ascii.
  pose proof (len_four_digits high Hh) as H1.
  pose proof (len_four_digits low Hl) as H2.
  unfold len in *. rewrite !length_app. unfold spaces. rewrite repeat_length.
  cbn [list_ascii_of_string Datatypes.length]. lia.
Qed.

Lemma render_row_width_witness :
  Z.of_nat (String.length (render (Row "00 00000000 0000F5FA" 71 0)))
    = 13 + Z.max 65 (Z.of_nat (String.length "00 00000000 0000F5FA")).
Proof. apply render_row_width; lia. Defined.

Section AnyLabels.

Variables self line_width full_size hgroup vgroup : Z.

Lemma countdown_width (c : Z) (n : nat) :
  Forall (fun '(high, low) => high = low + line_width - 1) (countdown c line_width n).
Proof.
  revert c. induction n as [|n IH]; intros c; constructor; [lia | apply IH].
Qed.

(** Whatever the parameters, and whether the loop finishes or raises, the
    labels printed so far count down from [c]. *)
Lemma emit_labels_any (tmp : list string) (c : Z) :
  exists n, (n <= Datatypes.length tmp)%nat /\
    labels (fst (emit tmp c line_width hgroup vgroup)) = countdown c line_width n.
Proof.
  revert c. induction tmp as [|chunk rest IH]; intros c.
  - exists O. split; [lia | reflexivity].
  - cbn [emit]. destruct (_reversesplit chunk hgroup) as [parts|e].
    + rewrite bind_lift_Done, bind_print. cbn [fst labels].
      destruct (IH (c - 1)) as (n & Hn & E).
      unfold pymod. destruct (vgroup =? 0).
      * exists 1%nat. split; [simpl; lia | reflexivity].
      * rewrite bind_lift_Done. exists (S n). split; [simpl; lia|].
        cbn [countdown]. f_equal.
        destruct ((c - 1) mod vgroup =? 0).
        -- rewrite bind_print. exact E.
        -- rewrite bind_ret. exact E.
    + exists O. split; [lia | reflexivity].
Qed.

Lemma hex_body_labels_any :
  exists n,
    labels (fst (hex_body self line_width full_size hgroup vgroup))
    = countdown (full_size / line_width) line_width n.
Proof.
  unfold hex_body. rewrite fst_bind, check_silent. cbn [app].
  destruct (snd (check line_width full_size)); [|now exists O].
  rewrite bind_print. cbn [fst labels]. cbv zeta.
  rewrite fst_bind. cbn [lift fst snd app].
  destruct (_reversesplit _ _) as [tmp|]; [|now exists O].
  rewrite fst_bind. cbn [lift fst snd app].
  unfold pydiv. destruct (line_width =? 0); [now exists O|].
  destruct (emit_labels_any tmp (full_size / line_width)) as (n & _ & E). eauto.
Qed.

Lemma bin_body_labels_any :
  exists n,
    labels (fst (bin_body self line_width full_size hgroup vgroup))
    = countdown (full_size / line_width) line_width n.
Proof.
  unfold bin_body. rewrite fst_bind, check_silent. cbn [app].
  destruct (snd (check line_width full_size)); [|now exists O].
  cbv zeta. rewrite bind_print. cbn [fst labels].
  rewrite fst_bind. cbn [lift fst snd app].
  destruct (_reversesplit _ _) as [tmp|]; [|now exists O].
  rewrite fst_bind. cbn [lift fst snd app].
  unfold pydiv. destruct (line_width =? 0); [now exists O|].
  destruct (emit_labels_any tmp (full_size / line_width)) as (n & _ & E). eauto.
Qed.

Lemma labels_rows_any (tmp : list (list ascii)) (c : Z) :
  labels (rows tmp c line_width hgroup vgroup)
  = countdown c line_width (Datatypes.length tmp).
Proof.
  revert c. induction tmp as [|chunk rest IH]; intros c; [reflexivity|].
  cbn [rows labels Datatypes.length countdown]. f_equal.
  destruct ((c - 1) mod vgroup =? 0); apply IH.
Qed.

End AnyLabels.

(** X11. Whatever the value and the parameters, and whether the call
    returns or raises on the way, the labels that [hex] and [bin] have
    printed count down from the quotient of the grown [full_size] by
    [line_width]: line after line [[c*w-1 : c*w-w]], [[(c-1)*w-1 : ...]],
    ..., so every label spans [line_width] bits and starts right below the
    one before. *)
Theorem labels_count_down (v line_width full_size hgroup vgroup full_size' : Z)
    (fuel : nat) (out : list line) (r : result unit) :
  grow fuel v line_width full_size = Some (Done full_size') ->
  hex fuel v line_width full_size hgroup vgroup = Some (out, r) \/
  bin fuel v line_width full_size hgroup vgroup = Some (out, r) ->
  (exists n, labels out = countdown (full_size' / line_width) line_width n) /\
  Forall (fun '(high, low) => high = low + line_width - 1) (labels out).
Proof.
  intros Hg H.
  assert (E : exists n, labels out = countdown (full_size' / line_width) line_width n).
  { unfold hex, bin in H. rewrite Hg in H. cbn [run] in H.
    destruct H as [[= H] | [= H]].
    - replace out with (fst (hex_body v line_width full_size' hgroup vgroup))
        by (now rewrite H).
      apply hex_body_labels_any.
    - replace out with (fst (bin_body v line_width full_size' hgroup vgroup))
        by (now rewrite H).
      apply bin_body_labels_any. }
  split; [exact E|]. destruct E as [n ->]. apply countdown_width.
Qed.

Lemma labels_count_down_witness :
  (exists n,
     labels [BinHeader 5; Row "000" 4 0; Blank; Row "0 0000" (-1) (-5)]
     = countdown (8 / 5) 5 n) /\
  Forall (fun '(high, low) => high = low + 5 - 1)
         (labels [BinHeader 5; Row "000" 4 0; Blank; Row "0 0000" (-1) (-5)]).
Proof.
  apply (labels_count_down 0 5 8 4 8 8 1 _ (Done tt)); [reflexivity|].
  right. reflexivity.
Defined.

Lemma last_countdown (c line_width : Z) (k : nat) (d : Z * Z) :
  last (countdown c line_width (S k)) d
  = ((c - Z.of_nat k) * line_width - 1, (c - Z.of_nat k) * line_width - line_width).
Proof.
  revert c. induction k as [|k IH]; intros c.
  - simpl. f_equal; f_equal; lia.
  - change (countdown c line_width (S (S k)))
      with ((c * line_width - 1, c * line_width - line_width)
              :: countdown (c - 1) line_width (S k)).
    change (last (?x :: countdown (c - 1) line_width (S k)) d)
      with (last (countdown (c - 1) line_width (S k)) d).
    rewrite IH. f_equal; f_equal; lia.
Qed.

(** X12. [bin] prints as many content lines as it takes to hold
    [full_size] symbols, [line_width] to a line, while its counter starts
    at the rounded-down quotient: for a non-negative value, positive
    parameters and a grown [full_size] above [line_width], there are
    [ceil(full_size / line_width)] content lines, and when [line_width]
    does not divide [full_size] the bottom one is labelled
    [[-1 : -line_width]]. *)
Theorem bin_line_count (v line_width full_size hgroup vgroup full_size' : Z)
    (fuel : nat) :
  0 <= v -> 0 < hgroup -> 0 < vgroup -> 0 < line_width < full_size' ->
  grow fuel v line_width full_size = Some (Done full_size') ->
  exists out,
    bin fuel v line_width full_size hgroup vgroup = Some (out, Done tt) /\
    Z.of_nat (Datatypes.length (content out))
      = (full_size' + line_width - 1) / line_width /\
    labels out = countdown (full_size' / line_width) line_width
                           (Z.to_nat ((full_size' + line_width - 1) / line_width)) /\
    (full_size' mod line_width <> 0 ->
     last (labels out) (0, 0) = (-1, - line_width)).
Proof.
  intros Hv Hh Hvg Hw Hg. unfold bin. rewrite Hg. cbn [run].
  rewrite bin_body_rows by lia. eexists. split; [reflexivity|].
  change (content (BinHeader line_width :: ?r)) with (content r).
  change (labels (BinHeader line_width :: ?r)) with (labels r).
  rewrite content_rows_length, labels_rows_any, length_groups.
  assert (Hlen : len (padded 2 full_size' v) = full_size').
  { apply len_padded; try lia. eapply grow_fits; eassumption. }
  rewrite Hlen.
  assert (Hc : 0 <= (full_size' + line_width - 1) / line_width)
    by (apply Z.div_pos; lia).
  repeat split; [lia|].
  intros Hm.
  pose proof (Z.div_mod full_size' line_width ltac:(lia)) as Hd.
  pose proof (Z.mod_pos_bound full_size' line_width ltac:(lia)) as Hb.
  assert (Hceil : (full_size' + line_width - 1) / line_width
                  = full_size' / line_width + 1).
  { symmetry. apply Z.div_unique with (r := full_size' mod line_width - 1); lia. }
  assert (Hq : 0 <= full_size' / line_width) by (apply Z.div_pos; lia).
  rewrite Hceil.
  replace (Z.to_nat (full_size' / line_width + 1))
    with (S (Z.to_nat (full_size' / line_width))) by lia.
  rewrite last_countdown, Z2Nat.id by assumption.
  f_equal; lia.
Qed.

Lemma bin_line_count_witness :
  exists out,
    bin 1 0 5 8 4 8 = Some (out, Done tt) /\
    Z.of_nat (Datatypes.length (content out)) = (8 + 5 - 1) / 5 /\
    labels out = countdown (8 / 5) 5 (Z.to_nat ((8 + 5 - 1) / 5)) /\
    (8 mod 5 <> 0 -> last (labels out) (0, 0) = (-1, - 5)).
Proof. apply (bin_line_count 0 5 8 4 8 8 1); try lia. reflexivity. Defined.

Lemma len_concat_full (size : Z) (gs : list (list ascii)) :
  Forall (fun g => len g = size) gs ->
  len (List.concat gs) = Z.of_nat (Datatypes.length gs) * size.
Proof.
  induction 1 as [|g gs Hg _ IH]; [reflexivity|].
  cbn [List.concat Datatypes.length]. rewrite len_app, IH, Hg. lia.
Qed.

(** When the length is a multiple of the size, the first group is full too. *)
Lemma groups_full (size n : Z) (l : list ascii) :
  0 < size -> len l = n * size -> Forall (fun g => len g = size) (groups size l).
Proof.
  intros Hs Hl. destruct l as [|c l].
  - rewrite groups_nil by assumption. constructor.
  - destruct (groups_shape size Hs (c :: l)) as (first & others & E & H1 & H2);
      [discriminate|].
    pose proof (concat_groups size Hs (c :: l)) as Hc.
    rewrite E in *. apply (f_equal len) in Hc.
    cbn [List.concat] in Hc. rewrite len_app, (len_concat_full size others H2), Hl in Hc.
    constructor; [|assumption].
    assert (Hm : len first = (n - Z.of_nat (Datatypes.length others)) * size) by lia.
    assert (n - Z.of_nat (Datatypes.length others) = 1) by nia.
    nia.
Qed.

Lemma groups_symbols (base size : Z) (l : list ascii) :
  0 < size ->
  Forall (fun c => is_symbol base c = true) l ->
  Forall (Forall (fun c => is_symbol base c = true)) (groups size l).
Proof.
  intros Hs Hl. apply Forall_concat. now rewrite concat_groups.
Qed.

Lemma texts_symbol_count (base size hgroup : Z) (tmp : list (list ascii))
    (c line_width vgroup : Z) :
  0 < hgroup ->
  Forall (fun chunk => len chunk = size) tmp ->
  Forall (Forall (fun ch => is_symbol base ch = true)) tmp ->
  Forall (fun text => len (filter (is_symbol base) (list_ascii_of_string text)) = size)
         (texts (rows tmp c line_width hgroup vgroup)).
Proof.
  intros Hh Hlen Hsym. rewrite texts_rows. apply Forall_map.
  rewrite Forall_forall in *. intros chunk Hin.
  unfold grouped. rewrite filter_join, concat_groups by assumption.
  rewrite filter_all; [now apply Hlen | now apply Hsym].
Qed.

(** X13. Every content line is full: for a non-negative value, positive
    parameters and a grown [full_size] that is a multiple of [line_width]
    and passes the test, each content line of [bin] holds exactly
    [line_width] binary symbols and, when [line_width] is a multiple of 4,
    each content line of [hex] holds exactly [line_width / 4] hexadecimal
    symbols. *)
Theorem row_symbol_count (v line_width full_size hgroup vgroup full_size' : Z)
    (fuel : nat) :
  0 <= v -> 0 < line_width -> 0 < hgroup -> 0 < vgroup ->
  grow fuel v line_width full_size = Some (Done full_size') ->
  line_width < full_size' -> (line_width | full_size') ->
  (exists out,
     bin fuel v line_width full_size hgroup vgroup = Some (out, Done tt) /\
     Forall (fun text =>
               len (filter (is_symbol 2) (list_ascii_of_string text)) = line_width)
            (texts out)) /\
  ((4 | line_width) ->
   exists out,
     hex fuel v line_width full_size hgroup vgroup = Some (out, Done tt) /\
     Forall (fun text =>
               len (filter (is_symbol 16) (list_ascii_of_string text)) = line_width / 4)
            (texts out)).
Proof.
  intros Hv Hw Hh Hvg Hg Hlt [q Hq].
  pose proof (grow_fits _ _ _ _ _ Hv Hg) as Hfit.
  unfold hex, bin. rewrite Hg. cbn [run]. split.
  - rewrite bin_body_rows by lia. eexists. split; [reflexivity|].
    change (texts (BinHeader line_width :: ?r)) with (texts r).
    apply texts_symbol_count; try assumption.
    + apply (groups_full line_width q); [assumption|].
      rewrite len_padded; lia.
    + apply groups_symbols; [assumption|]. apply symbols_padded; lia.
  - intros [a Ha].
    assert (Ha0 : 0 < a) by lia.
    assert (Hw4 : line_width / 4 = a) by (rewrite Ha; apply Z.div_mul; lia).
    assert (Hf4 : full_size' / 4 = q * a).
    { rewrite Hq, Ha, Z.mul_assoc. apply Z.div_mul. lia. }
    rewrite hex_body_rows by lia. eexists. split; [reflexivity|].
    change (texts (HexHeader (line_width / 8) :: ?r)) with (texts r).
    rewrite Hw4, Hf4.
    apply texts_symbol_count; try assumption.
    + apply (groups_full a q); [assumption|].
      apply len_padded; try lia; try nia.
      change 16 with (2 ^ 4). rewrite <- Z.pow_mul_r by nia.
      replace (4 * (q * a)) with full_size' by lia. assumption.
    + apply groups_symbols; [assumption|]. apply symbols_padded; lia.
Qed.

Lemma row_symbol_count_witness :
  (exists out,
     bin 9 (2 ^ 40) 16 32 4 2 = Some (out, Done tt) /\
     Forall (fun text => len (filter (is_symbol 2) (list_ascii_of_string text)) = 16)
            (texts out)) /\
  ((4 | 16) ->
   exists out,
     hex 9 (2 ^ 40) 16 32 4 2 = Some (out, Done tt) /\
     Forall (fun text =>
               len (filter (is_symbol 16) (list_ascii_of_string text)) = 16 / 4)
            (texts out)).
Proof.
  apply (row_symbol_count (2 ^ 40) 16 32 4 2 48 9); try lia.
  - vm_compute. reflexivity.
  - exists 3. reflexivity.
Defined.

(** X14. A size that is at least the length of the string leaves it in one
    piece: [_reversesplit] of a non-empty string returns the string alone,
    so a chunk no longer than [hgroup] is printed without any space. *)
Theorem _reversesplit_single_group (binstring : string) (size : Z) :
  binstring <> ""%string ->
  Z.of_nat (String.length binstring) <= size ->
  _reversesplit binstring size = Done [binstring] /\
  join [binstring] = binstring.
Proof.
  intros Hne Hlen. split; [|reflexivity].
  rewrite <- length_list_ascii in Hlen.
  rewrite <- (string_of_list_ascii_of_string binstring) at 2.
  remember (list_ascii_of_string binstring) as l eqn:El.
  assert (Hl : l <> []).
  { subst l. destruct binstring; [congruence | discriminate]. }
  assert (H1 : 1 <= len l).
  { unfold len. destruct l; [congruence | simpl; lia]. }
  fold (len l) in Hlen.
  rewrite _reversesplit_pos, <- El by lia.
  destruct (groups_shape size ltac:(lia) l Hl) as (first & others & E & _ & _).
  pose proof (length_groups size l) as Hn.
  pose proof (concat_groups size ltac:(lia) l) as Hc.
  replace ((len l + size - 1) / size) with 1 in Hn
    by (apply Z.div_unique with (r := len l - 1); lia).
  rewrite E in Hn, Hc. destruct others; [|discriminate].
  simpl in Hc. rewrite app_nil_r in Hc. subst first.
  rewrite E. reflexivity.
Qed.

Lemma _reversesplit_single_group_witness :
  _reversesplit "F5FA" 8 = Done ["F5FA"%string] /\
  join ["F5FA"%string] = "F5FA"%string.
Proof.
  apply _reversesplit_single_group; [discriminate | simpl; lia].
Defined.

Section Blanks.

Variables line_width hgroup vgroup : Z.
Hypothesis vgroup_pos : 0 < vgroup.

Lemma rows_nonempty (tmp : list (list ascii)) (c : Z) :
  tmp <> [] -> rows tmp c line_width hgroup vgroup <> [].
Proof. destruct tmp; [congruence | discriminate]. Qed.

Lemma last_skip (x : line) (sep l : list line) (d : line) :
  l <> [] -> last (x :: sep ++ l) d = last l d.
Proof.
  intros Hl. change (x :: sep ++ l) with ((x :: sep) ++ l).
  destruct (exists_last Hl) as (l' & y & ->).
  now rewrite app_assoc, !last_last.
Qed.

Lemma last_behind (x : line) (l : list line) (d : line) :
  l <> [] -> last (x :: l) d = last l d.
Proof. intros Hl. exact (last_skip x [] l d Hl). Qed.

(** The bottom line has counter 1, so a blank line follows it. *)
Lemma last_rows (tmp : list (list ascii)) (d : line) :
  tmp <> [] ->
  last (rows tmp (Z.of_nat (Datatypes.length tmp)) line_width hgroup vgroup) d = Blank.
Proof.
  induction tmp as [|chunk rest IH]; intros Hne; [congruence|].
  cbn [rows Datatypes.length].
  replace (Z.of_nat (S (Datatypes.length rest)) - 1)
    with (Z.of_nat (Datatypes.length rest)) by lia.
  destruct rest as [|chunk' rest].
  - cbn [Datatypes.length rows]. rewrite Z.mod_0_l by lia. reflexivity.
  - rewrite last_skip by (apply rows_nonempty; discriminate).
    apply IH. discriminate.
Qed.

Lemma ceil_succ (n : Z) :
  0 <= n ->
  (n + 1 + vgroup - 1) / vgroup
  = (n + vgroup - 1) / vgroup + (if n mod vgroup =? 0 then 1 else 0).
Proof.
  intros Hn.
  pose proof (Z.div_mod n vgroup ltac:(lia)) as Hd.
  pose proof (Z.mod_pos_bound n vgroup vgroup_pos) as Hb.
  destruct (Z.eqb_spec (n mod vgroup) 0) as [E|E].
  - rewrite <- (Z.div_unique (n + vgroup - 1) vgroup (n / vgroup) (vgroup - 1)) by lia.
    symmetry. apply Z.div_unique with (r := 0); lia.
  - rewrite <- (Z.div_unique (n + vgroup - 1) vgroup (n / vgroup + 1) (n mod vgroup - 1))
      by lia.
    symmetry. apply Z.div_unique with (r := n mod vgroup); lia.
Qed.

Lemma blanks_rows (tmp : list (list ascii)) :
  Z.of_nat (Datatypes.length
              (filter is_blank
                 (rows tmp (Z.of_nat (Datatypes.length tmp)) line_width hgroup vgroup)))
  = (Z.of_nat (Datatypes.length tmp) + vgroup - 1) / vgroup.
Proof.
  induction tmp as [|chunk rest IH].
  - simpl. symmetry. apply Z.div_small. lia.
  - cbn [rows Datatypes.length filter is_blank].
    replace (Z.of_nat (S (Datatypes.length rest)) - 1)
      with (Z.of_nat (Datatypes.length rest)) by lia.
    rewrite filter_app, length_app, Nat2Z.inj_add, IH.
    replace (Z.of_nat (S (Datatypes.length rest)) + vgroup - 1)
      with (Z.of_nat (Datatypes.length rest) + 1 + vgroup - 1) by lia.
    rewrite ceil_succ by lia.
    destruct (_ mod vgroup =? 0); cbn [filter is_blank Datatypes.length]; lia.
Qed.

End Blanks.

(** X15. The output ends with a blank line: for a non-negative value,
    positive parameters and a grown [full_size] that is a multiple of
    [line_width] and passes the test, the last thing [bin] prints, and
    [hex] when [line_width] is a multiple of 4, is a blank line, whatever
    [vgroup]. *)
Theorem closing_blank_line (v line_width full_size hgroup vgroup full_size' : Z)
    (fuel : nat) :
  0 <= v -> 0 < line_width -> 0 < hgroup -> 0 < vgroup ->
  grow fuel v line_width full_size = Some (Done full_size') ->
  line_width < full_size' -> (line_width | full_size') ->
  (exists out,
     bin fuel v line_width full_size hgroup vgroup = Some (out, Done tt) /\
     last out (BinHeader line_width) = Blank) /\
  ((4 | line_width) ->
   exists out,
     hex fuel v line_width full_size hgroup vgroup = Some (out, Done tt) /\
     last out (HexHeader (line_width / 8)) = Blank).
Proof.
  intros Hv Hw Hh Hvg Hg Hp Hm.
  assert (Hq : 0 < full_size' / line_width).
  { apply Z.div_str_pos. lia. }
  split.
  - destruct (bin_aligned v line_width full_size hgroup vgroup full_size' fuel)
      as (tmp & Hn & E); try assumption.
    eexists. split; [exact E|].
    assert (Hne : tmp <> []) by (destruct tmp; [simpl in Hn; lia | discriminate]).
    rewrite last_behind by now apply rows_nonempty.
    now apply last_rows.
  - intros H4.
    destruct (hex_aligned v line_width full_size hgroup vgroup full_size' fuel)
      as (tmp & Hn & E); try assumption.
    eexists. split; [exact E|].
    assert (Hne : tmp <> []) by (destruct tmp; [simpl in Hn; lia | discriminate]).
    rewrite last_behind by now apply rows_nonempty.
    now apply last_rows.
Qed.

Lemma closing_blank_line_witness :
  (exists out,
     bin 9 (2 ^ 40) 16 32 4 5 = Some (out, Done tt) /\
     last out (BinHeader 16) = Blank) /\
  ((4 | 16) ->
   exists out,
     hex 9 (2 ^ 40) 16 32 4 5 = Some (out, Done tt) /\
     last out (HexHeader (16 / 8)) = Blank).
Proof.
  apply (closing_blank_line (2 ^ 40) 16 32 4 5 48 9); try lia.
  - vm_compute. reflexivity.
  - exists 3. reflexivity.
Defined.

(** X16. The number of blank lines: under the same conditions the output
    of [bin], and of [hex] when [line_width] is a multiple of 4, holds
    [ceil(n / vgroup)] blank lines for its [n = full_size / line_width]
    content lines. *)
Theorem blank_line_count (v line_width full_size hgroup vgroup full_size' : Z)
    (fuel : nat) :
  0 <= v -> 0 < line_width -> 0 < hgroup -> 0 < vgroup ->
  grow fuel v line_width full_size = Some (Done full_size') ->
  line_width < full_size' -> (line_width | full_size') ->
  (exists out,
     bin fuel v line_width full_size hgroup vgroup = Some (out, Done tt) /\
     Z.of_nat (Datatypes.length (filter is_blank out))
       = (full_size' / line_width + vgroup - 1) / vgroup) /\
  ((4 | line_width) ->
   exists out,
     hex fuel v line_width full_size hgroup vgroup = Some (out, Done tt) /\
     Z.of_nat (Datatypes.length (filter is_blank out))
       = (full_size' / line_width + vgroup - 1) / vgroup).
Proof.
  intros Hv Hw Hh Hvg Hg Hp Hm. split.
  - destruct (bin_aligned v line_width full_size hgroup vgroup full_size' fuel)
      as (tmp & Hn & E); try assumption.
    eexists. split; [exact E|].
    change (filter is_blank (BinHeader line_width :: ?r)) with (filter is_blank r).
    rewrite blanks_rows, Hn by assumption. reflexivity.
  - intros H4.
    destruct (hex_aligned v line_width full_size hgroup vgroup full_size' fuel)
      as (tmp & Hn & E); try assumption.
    eexists. split; [exact E|].
    change (filter is_blank (HexHeader (line_width / 8) :: ?r)) with (filter is_blank r).
    rewrite blanks_rows, Hn by assumption. reflexivity.
Qed.

Lemma blank_line_count_witness :
  (exists out,
     bin 9 (2 ^ 40) 16 32 4 2 = Some (out, Done tt) /\
     Z.of_nat (Datatypes.length (filter is_blank out)) = (48 / 16 + 2 - 1) / 2) /\
  ((4 | 16) ->
   exists out,
     hex 9 (2 ^ 40) 16 32 4 2 = Some (out, Done tt) /\
     Z.of_nat (Datatypes.length (filter is_blank out)) = (48 / 16 + 2 - 1) / 2).
Proof.
  apply (blank_line_count (2 ^ 40) 16 32 4 2 48 9); try lia.
  - vm_compute. reflexivity.
  - exists 3. reflexivity.
Defined.

Lemma bit_length_opp (n : Z) : bit_length (- n) = bit_length n.
Proof.
  unfold bit_length. rewrite Z.abs_opp.
  destruct (Z.eqb_spec n 0), (Z.eqb_spec (- n) 0); lia.
Qed.

(** X17. [_rawbin] drops two characters of [bin(number)] whatever its
    sign, so for a negative number, whose [bin] starts with ["-0b"], it
    drops ["-0"] and the ["b"] stays: the result is the zero padding, a
    ["b"] and the binary numeral of the absolute value.  It is therefore
    not a string of binary digits, and the ["b"] counts in its length,
    which is the larger of the padding and one more than the number of
    bits. *)
Theorem _rawbin_negative (number padding : Z) :
  number < 0 ->
  list_ascii_of_string (_rawbin number padding)
    = zeros (padding - (1 + len (numeral 2 (- number))))
        ++ "b"%char :: numeral 2 (- number) /\
  ~ Forall (fun c => is_symbol 2 c = true)
           (list_ascii_of_string (_rawbin number padding)) /\
  len (list_ascii_of_string (_rawbin number padding))
    = Z.max padding (1 + bit_length number).
Proof.
  intros Hn.
  assert (E : list_ascii_of_string (_rawbin number padding)
              = zeros (padding - (1 + len (numeral 2 (- number))))
                  ++ "b"%char :: numeral 2 (- number)).
  { unfold _rawbin, builtin_bin. rewrite list_ascii_of_string_of_list_ascii.
    destruct (Z.ltb_spec number 0); [|lia].
    rewrite Z.abs_neq by lia. cbn [app skipn].
    replace (len ("b"%char :: numeral 2 (- number)))
      with (1 + len (numeral 2 (- number)))
      by (unfold len; cbn [Datatypes.length]; lia).
    destruct (Z.ltb_spec padding (1 + len (numeral 2 (- number)))); [|reflexivity].
    unfold zeros. replace (Z.to_nat _) with O by lia. reflexivity. }
  split; [exact E|]. rewrite E. split.
  - intros H. apply Forall_app in H. destruct H as [_ H].
    inversion H as [|c l Hb _]. discriminate Hb.
  - rewrite len_app, len_zeros.
    replace (len ("b"%char :: numeral 2 (- number)))
      with (1 + len (numeral 2 (- number)))
      by (unfold len; cbn [Datatypes.length]; lia).
    rewrite len_numeral_2, bit_length_opp by lia.
    assert (1 <= bit_length number).
    { unfold bit_length. destruct (Z.eqb_spec number 0); [lia|].
      pose proof (Z.log2_nonneg (Z.abs number)). lia. }
    lia.
Qed.

Lemma _rawbin_negative_witness :
  list_ascii_of_string (_rawbin (-5) 5)
    = zeros (5 - (1 + len (numeral 2 (- -5)))) ++ "b"%char :: numeral 2 (- -5) /\
  ~ Forall (fun c => is_symbol 2 c = true) (list_ascii_of_string (_rawbin (-5) 5)) /\
  len (list_ascii_of_string (_rawbin (-5) 5)) = Z.max 5 (1 + bit_length (-5)).
Proof. apply _rawbin_negative. lia. Defined.

(** X18. The default parameters are safe for every non-negative value:
    [hex] and [bin] called with their defaults return without raising, the
    size they grow to is a multiple of the default [line_width] that holds
    the value, and their labels cut its bits into consecutive lines. *)
Theorem defaults_always_succeed (v : Z) (fuel : nat) :
  0 <= v -> (Z.to_nat (bit_length v) < fuel)%nat ->
  (exists full_size' out,
     hex fuel v 72 576 8 8 = Some (out, Done tt) /\
     bit_length v <= full_size' /\ (72 | full_size') /\
     descending_labels 72 full_size' out) /\
  (exists full_size' out,
     bin fuel v 16 128 4 8 = Some (out, Done tt) /\
     bit_length v <= full_size' /\ (16 | full_size') /\
     descending_labels 16 full_size' out).
Proof.
  intros Hv Hfuel. split.
  - destruct (grow_reaches v 72 Hv ltac:(lia) fuel 576) as (k & Hk & Hg & Hb & _);
      try lia.
    assert (Hm : (72 | 576 + k * 72)) by (exists (8 + k); lia).
    destruct (hex_aligned v 72 576 8 8 (576 + k * 72) fuel)
      as (tmp & Hn & E); try assumption; try lia.
    { exists 18. reflexivity. }
    exists (576 + k * 72). eexists. split; [exact E|].
    repeat split; try assumption.
    all: apply (rows_descending 72 (576 + k * 72) 8 8 _ tmp); auto; lia.
  - destruct (grow_reaches v 16 Hv ltac:(lia) fuel 128) as (k & Hk & Hg & Hb & _);
      try lia.
    assert (Hm : (16 | 128 + k * 16)) by (exists (8 + k); lia).
    destruct (bin_aligned v 16 128 4 8 (128 + k * 16) fuel)
      as (tmp & Hn & E); try assumption; try lia.
    exists (128 + k * 16). eexists. split; [exact E|].
    repeat split; try assumption.
    all: apply (rows_descending 16 (128 + k * 16) 4 8 _ tmp); auto; lia.
Qed.

Lemma defaults_always_succeed_witness :
  (exists full_size' out,
     hex 700 (2 ^ 600) 72 576 8 8 = Some (out, Done tt) /\
     bit_length (2 ^ 600) <= full_size' /\ (72 | full_size') /\
     descending_labels 72 full_size' out) /\
  (exists full_size' out,
     bin 700 (2 ^ 600) 16 128 4 8 = Some (out, Done tt) /\
     bit_length (2 ^ 600) <= full_size' /\ (16 | full_size') /\
     descending_labels 16 full_size' out).
Proof. apply defaults_always_succeed; [lia | vm_compute; lia]. Defined.
